(** * Uptime monitor: the bot's monitoring loop and the REST API, verified

    A shallow embedding of [bot.py] and [api_server.py].  The two MongoDB
    collections the programs share are explicit state: [websites] is a
    finite map from ObjectId to document, [api_keys] a list of documents in
    insertion order.  Whatever the outside world decides (the HTTP reply of
    a probed site, clock readings, a failing database call, a failing
    Telegram delivery, the random token) is an explicit argument, so every
    handler is a function that can be evaluated.

    Modelling conventions
    - Python [int] is [Z]; a Python [float] holding a ratio is the exact
      rational [Q] (IEEE rounding is not modelled); [a / b] raises
      [ZeroDivisionError] for [b = 0] and so returns [option].
    - The status strings ['up'] and ['down'] are the two constructors of
      [Status]; no other status string is ever produced by the programs.
    - A key read with [d.get(k, default)] is an [option] field; a key read
      with [d[k]] is a plain field.
    - Timestamps ([datetime.utcnow()]) are opaque integers. *)

From Stdlib Require Import ZArith QArith String List Bool Lia.
From stdpp Require Import base option gmap.
Import ListNotations.

Local Open Scope Z_scope.
Local Open Scope string_scope.

(** ** Python primitives *)

Module Py.

(** [a / b] on ints: true division, [ZeroDivisionError] when [b = 0]. *)
Definition truediv (a b : Z) : option Q :=
  if Z.eqb b 0 then None else Some (Qdiv (inject_Z a) (inject_Z b)).

(** [int(x)] on a float: truncation toward zero. *)
Definition int (x : Q) : Z := Z.quot (Qnum x) (Zpos (Qden x)).

(** [s.startswith(p)]. *)
Definition startswith (p s : string) : bool := String.prefix p s.

(** [s.replace(old, '')]: every non-overlapping occurrence of [old],
    scanning left to right, is removed.  [skip] counts the characters of
    the occurrence being dropped that are still ahead. *)
Fixpoint remove_from (old s : string) (skip : nat) : string :=
  match s with
  | EmptyString => EmptyString
  | String c s' =>
      match skip with
      | S k => remove_from old s' k
      | O =>
          match old with
          | EmptyString => String c (remove_from old s' O)
          | String _ old' =>
              if String.prefix old s
              then remove_from old s' (String.length old')
              else String c (remove_from old s' O)
          end
      end
  end.

Definition remove_all (old s : string) : string := remove_from old s O.

(** Truthiness of the values the programs test with [if x] / [x or y]. *)
Definition truthy_str (s : option string) : bool :=
  match s with
  | None | Some EmptyString => false
  | Some _ => true
  end.

End Py.

(** ** Data model *)

Inductive Status := up | down.

Definition Status_eqb (a b : Status) : bool :=
  match a, b with
  | up, up | down, down => true
  | _, _ => false
  end.

(** The dict returned by [check_website]. *)
Record CheckResult := {
  res_status : Status;
  res_status_code : Z;
  res_response_time : Z;
  res_checked_at : Z;
  res_error : option string
}.

(** What happens on the wire during one [session.get]: a response with
    its HTTP status, [asyncio.TimeoutError], or any other [Exception];
    an exception carries its text [str(e)]. *)
Inductive Reply :=
| Responds (http_status : Z)
| TimesOut (text : string)
| Fails (text : string).

(** One probe as the world plays it: the reply, the two readings of
    [time.time()] (seconds) and the reading of [datetime.utcnow()]. *)
Record Wire := {
  reply : Reply;
  start_time : Q;
  end_time : Q;
  utcnow : Z
}.

Definition elapsed_ms (w : Wire) : Z :=
  Py.int (Qmult (Qminus (end_time w) (start_time w)) (inject_Z 1000)).

(** A document of the [websites] collection. *)
Record Website := {
  user_id : Z;
  url : string;
  interval : string;
  interval_seconds : Z;
  added_at : Z;
  status : Status;
  last_checked : Z;
  last_status_code : Z;
  last_response_time : Z;
  uptime_percentage : Q;
  total_checks : option Z;
  successful_checks : option Z;
  notifications_enabled : option bool
}.

(** [site.get(k, d)]. *)
Definition get {A} (field : option A) (d : A) : A := default d field.


(** ** The two collections *)

(** ObjectIds are 96-bit numbers; [websites] maps [_id] to document. *)
Abbreviation ObjectId := N.
Abbreviation Websites := (gmap N Website).

(** [ObjectId(s)] for a string: bson accepts exactly the strings of 24
    hexadecimal digits and raises [InvalidId] otherwise. *)
Definition hex_digit (c : Ascii.ascii) : option N :=
  let n := Ascii.N_of_ascii c in
  if (N.leb 48 n && N.leb n 57)%bool then Some (n - 48)%N
  else if (N.leb 97 n && N.leb n 102)%bool then Some (n - 87)%N
  else if (N.leb 65 n && N.leb n 70)%bool then Some (n - 55)%N
  else None.

Fixpoint hex_value (s : string) (acc : N) : option N :=
  match s with
  | EmptyString => Some acc
  | String c s' =>
      match hex_digit c with
      | Some d => hex_value s' (16 * acc + d)%N
      | None => None
      end
  end.

Definition parse_ObjectId (s : string) : option ObjectId :=
  if Nat.eqb (String.length s) 24 then hex_value s 0%N else None.

(** The seven keys written by [{'$set': {...}}] after a check. *)
Definition set_check (r : CheckResult) (uptime : Q) (total succ : Z)
    (w : Website) : Website :=
  {| user_id := user_id w;
     url := url w;
     interval := interval w;
     interval_seconds := interval_seconds w;
     added_at := added_at w;
     status := res_status r;
     last_checked := res_checked_at r;
     last_status_code := res_status_code r;
     last_response_time := res_response_time r;
     uptime_percentage := uptime;
     total_checks := Some total;
     successful_checks := Some succ;
     notifications_enabled := notifications_enabled w |}.

(** The keys [update_website] may set: the interval (name and seconds)
    and the notifications flag. *)
Record Settings := {
  set_interval : option (string * Z);
  set_notifications : option bool
}.

Definition set_settings (s : Settings) (w : Website) : Website :=
  {| user_id := user_id w;
     url := url w;
     interval := from_option fst (interval w) (set_interval s);
     interval_seconds := from_option snd (interval_seconds w) (set_interval s);
     added_at := added_at w;
     status := status w;
     last_checked := last_checked w;
     last_status_code := last_status_code w;
     last_response_time := last_response_time w;
     uptime_percentage := uptime_percentage w;
     total_checks := total_checks w;
     successful_checks := successful_checks w;
     notifications_enabled :=
       match set_notifications s with
       | Some b => Some b
       | None => notifications_enabled w
       end |}.

(** [find_one({'_id': oid, 'user_id': user})]. *)
Definition find_owned (oid : ObjectId) (user : Z) (db : Websites)
    : option Website :=
  match db !! oid with
  | Some w => if Z.eqb (user_id w) user then Some w else None
  | None => None
  end.

(** Truthiness of [find_one({'user_id': user, 'url': u})]. *)
Definition has_url (user : Z) (u : string) (db : Websites) : bool :=
  existsb (fun kw => Z.eqb (user_id (snd kw)) user && String.eqb (url (snd kw)) u)%bool
          (map_to_list db).

(** [update_one({'_id': oid}, {'$set': ...})]: no upsert, so a filter that
    matches nothing leaves the collection as it is. *)
Definition update_one (oid : ObjectId) (f : Website -> Website)
    (db : Websites) : Websites :=
  match db !! oid with
  | Some w => <[oid := f w]> db
  | None => db
  end.

Definition matched_count (oid : ObjectId) (db : Websites) : bool :=
  bool_decide (is_Some (db !! oid)).

(** The write operations the handlers issue on [websites]; each is one
    atomic MongoDB command.  They also describe what other handlers commit
    while a handler is suspended at an [await]. *)
Inductive Op :=
| InsertOne (oid : ObjectId) (doc : Website)
| SetCheck (oid : ObjectId) (r : CheckResult) (uptime : Q) (total succ : Z)
| SetSettings (oid : ObjectId) (user : Z) (s : Settings)
| DeleteOne (oid : ObjectId) (user : Z).

Definition apply_op (o : Op) (db : Websites) : Websites :=
  match o with
  | InsertOne oid doc =>
      match db !! oid with
      | Some _ => db                      (* DuplicateKeyError *)
      | None => <[oid := doc]> db
      end
  | SetCheck oid r uptime total succ =>
      update_one oid (set_check r uptime total succ) db
  | SetSettings oid user s =>
      match find_owned oid user db with
      | Some w => <[oid := set_settings s w]> db
      | None => db
      end
  | DeleteOne oid user =>
      match find_owned oid user db with
      | Some _ => delete oid db
      | None => db
      end
  end.

Definition apply_ops (os : list Op) (db : Websites) : Websites :=
  fold_left (fun d o => apply_op o d) os db.

(** ** The Statistics Aggregator and the Transition Detector

    Both programs inline the same three statements after a probe
    (bot.py 331-337, api_server.py 347-353). *)

Record Counters := {
  new_total : Z;
  new_successful : Z;
  new_uptime : Q
}.

Definition aggregate (site : Website) (result : CheckResult) : option Counters :=
  let total := get (total_checks site) 0 + 1 in
  let successful := get (successful_checks site) 0 in
  let successful :=
    if Status_eqb (res_status result) up then successful + 1 else successful in
  match Py.truediv successful total with
  | Some ratio =>
      Some {| new_total := total;
              new_successful := successful;
              new_uptime := Qmult ratio (inject_Z 100) |}
  | None => None
  end.

(** [status_changed and notifications_enabled] (bot.py 338, 356). *)
Definition shouldNotify (previous new : Status) (enabled : bool) : bool :=
  negb (Status_eqb previous new) && enabled.

(** ** Results, events and notifications *)

(** An exception: FastAPI's [HTTPException], or any other one by its text. *)
Inductive Exn :=
| HTTPException (status_code : Z) (detail : string)
| Error (text : string).

Inductive Outcome (A : Type) :=
| Returns (a : A)
| Raises (e : Exn).
Arguments Returns {A} a.
Arguments Raises {A} e.

(** The two alert texts of the monitoring loop, by their variable parts.
    The error shown in a down alert is
    [result['error'] or 'HTTP ' + str(result['status_code'])]. *)
Inductive Message :=
| DownAlert (site_url : string) (time : Z) (cause : string + Z) (every : string)
| BackOnline (site_url : string) (time : Z) (response_ms : Z) (uptime : Q).

(** What a handler does that the outside can observe. *)
Inductive Event :=
| Probed (endpoint : string)
| Updated (oid : ObjectId) (matched : bool)
| Sent (chat_id : Z) (m : Message) (delivered : bool)
| Slept (seconds : Z)
| Logged (text : string).

Definition is_probe (e : Event) : bool :=
  match e with Probed _ => true | _ => false end.

Definition is_sent (e : Event) : bool :=
  match e with Sent _ _ _ => true | _ => false end.

(** A document of the [api_keys] collection.  Documents are never removed
    from it, so the position in the list stands for [_id]. *)
Record ApiKey := {
  key_user_id : Z;
  api_key : string;
  created_at : Z;
  last_used : option Z;
  requests_count : Z;
  active : bool
}.

Abbreviation ApiKeys := (list ApiKey).

(** [INTERVALS] (bot.py 39-50), also [interval_map] of the API. *)
Definition INTERVALS : list (string * Z) :=
  [("10sec", 10); ("30sec", 30); ("1min", 60); ("2min", 120); ("3min", 180);
   ("5min", 300); ("10min", 600); ("15min", 900); ("30min", 1800);
   ("1hour", 3600)].

Fixpoint lookup_interval (key : string) (table : list (string * Z)) : option Z :=
  match table with
  | [] => None
  | (k, v) :: rest => if String.eqb k key then Some v else lookup_interval key rest
  end.

(** The document both creation paths build (bot.py 209-223,
    api_server.py 143-157). *)
Definition website_data (uid : Z) (u key : string) (seconds now : Z)
    (result : CheckResult) : Website :=
  {| user_id := uid;
     url := u;
     interval := key;
     interval_seconds := seconds;
     added_at := now;
     status := res_status result;
     last_checked := res_checked_at result;
     last_status_code := res_status_code result;
     last_response_time := res_response_time result;
     uptime_percentage := inject_Z 100;
     total_checks := Some 1;
     successful_checks := Some (if Status_eqb (res_status result) up then 1 else 0);
     notifications_enabled := Some true |}.

(** ** bot.py *)

Module Bot.

(** [UptimeMonitor.check_website] (lines 56-86). *)
Definition check_website (w : Wire) : CheckResult :=
  match reply w with
  | Responds code =>
      {| res_status := if Z.ltb code 500 then up else down;
         res_status_code := code;
         res_response_time := elapsed_ms w;
         res_checked_at := utcnow w;
         res_error := None |}
  | TimesOut _ =>
      {| res_status := down;
         res_status_code := 0;
         res_response_time := elapsed_ms w;
         res_checked_at := utcnow w;
         res_error := Some "Timeout" |}
  | Fails text =>
      {| res_status := down;
         res_status_code := 0;
         res_response_time := elapsed_ms w;
         res_checked_at := utcnow w;
         res_error := Some text |}
  end.

(** [generate_api_key] (lines 90-103); [token] is what
    [secrets.token_urlsafe(32)] returns. *)
Definition generate_api_key (uid : Z) (token : string) (now : Z)
    (keys : ApiKeys) : string * ApiKeys :=
  (token,
   (keys ++ [{| key_user_id := uid;
                api_key := token;
                created_at := now;
                last_used := None;
                requests_count := 0;
                active := true |}])%list).

Definition deactivate (k : ApiKey) : ApiKey :=
  {| key_user_id := key_user_id k;
     api_key := api_key k;
     created_at := created_at k;
     last_used := last_used k;
     requests_count := requests_count k;
     active := false |}.

(** [update_many({'user_id': uid}, {'$set': {'active': False}})]. *)
Definition deactivate_keys (uid : Z) (keys : ApiKeys) : ApiKeys :=
  map (fun k => if Z.eqb (key_user_id k) uid then deactivate k else k) keys.

(** [generate_new_api_key] (lines 473-495). *)
Definition generate_new_api_key (uid : Z) (token : string) (now : Z)
    (keys : ApiKeys) : string * ApiKeys :=
  generate_api_key uid token now (deactivate_keys uid keys).

(** [handle_interval_selection] (lines 197-245).  [pending_url] is
    [context.user_data.get('pending_url')], [oid] the ObjectId the driver
    generates for the new document, [now] the reading of
    [datetime.utcnow()] for [added_at]. *)
Definition handle_interval_selection (from_user : Z) (pending_url : string)
    (interval_key : string) (w : Wire) (now : Z) (oid : ObjectId)
    (db : Websites) : Outcome (ObjectId * Website) * Websites * list Event :=
  match lookup_interval interval_key INTERVALS with
  | None => (Raises (Error "KeyError"), db, [])
  | Some interval_seconds =>
      let result := check_website w in
      let doc :=
        website_data from_user pending_url interval_key interval_seconds now result in
      match db !! oid with
      | Some _ => (Raises (Error "DuplicateKeyError"), db, [Probed pending_url])
      | None => (Returns (oid, doc), <[oid := doc]> db, [Probed pending_url])
      end
  end.

(** One pass through the body of [while True] as the world plays it. *)
Record Cycle := {
  find_fault : option string;    (* [find_one] raises *)
  wire : Wire;                   (* the probe *)
  during_probe : list Op;        (* committed by others while the probe is awaited *)
  update_fault : option string;  (* [update_one] raises *)
  bot_fault : option string;     (* [Bot(token=BOT_TOKEN)] raises *)
  clock : Z;                     (* [datetime.utcnow()] in the alert *)
  send_fault : bool;             (* [send_message] raises *)
  during_sleep : list Op         (* committed by others during [asyncio.sleep] *)
}.

Inductive Control := Continue | Break | Raise (text : string).

Definition alert (site : Website) (result : CheckResult) (uptime : Q) (now : Z)
    : Message :=
  if Status_eqb (res_status result) down
  then DownAlert (url site) now
         (if Py.truthy_str (res_error result)
          then inl (get (res_error result) "")
          else inr (res_status_code result))
         (interval site)
  else BackOnline (url site) now (res_response_time result) uptime.

(** The body of the loop of [monitor_website] (lines 324-390). *)
Definition cycle (website_id : ObjectId) (uid : Z) (c : Cycle) (db : Websites)
    : Control * Websites * list Event :=
  match find_fault c with
  | Some e => (Raise e, db, [])
  | None =>
  match db !! website_id with
  | None => (Break, db, [])
  | Some site =>
  let result := check_website (wire c) in
  let db := apply_ops (during_probe c) db in
  match aggregate site result with
  | None => (Raise "division by zero", db, [Probed (url site)])
  | Some k =>
  match update_fault c with
  | Some e => (Raise e, db, [Probed (url site)])
  | None =>
  let updated := Updated website_id (matched_count website_id db) in
  let db :=
    update_one website_id
      (set_check result (new_uptime k) (new_total k) (new_successful k)) db in
  if shouldNotify (status site) (res_status result)
       (get (notifications_enabled site) true)
  then
    match bot_fault c with
    | Some e => (Raise e, db, [Probed (url site); updated])
    | None =>
        (Continue, apply_ops (during_sleep c) db,
         [Probed (url site); updated;
          Sent uid (alert site result (new_uptime k) (clock c))
               (negb (send_fault c));
          Slept (interval_seconds site)])
    end
  else
    (Continue, apply_ops (during_sleep c) db,
     [Probed (url site); updated; Slept (interval_seconds site)])
  end end end end.

(** How a run of [monitor_website] ends: [break] on a missing record,
    the handler around the loop, or still looping when the script of
    cycles is used up. *)
Inductive Exit := Stopped | Crashed (text : string) | Running.

Record Run := {
  final : Websites;
  trace : list Event;
  exit : Exit
}.

(** [monitor_website] (lines 320-393): the [try] encloses the [while]. *)
Fixpoint monitor_website (website_id : ObjectId) (uid : Z)
    (script : list Cycle) (db : Websites) : Run :=
  match script with
  | [] => {| final := db; trace := []; exit := Running |}
  | c :: rest =>
      match cycle website_id uid c db with
      | (Continue, db', evs) =>
          let r := monitor_website website_id uid rest db' in
          {| final := final r; trace := (evs ++ trace r)%list; exit := exit r |}
      | (Break, db', evs) =>
          {| final := db'; trace := evs; exit := Stopped |}
      | (Raise e, db', evs) =>
          {| final := db'; trace := (evs ++ [Logged e])%list; exit := Crashed e |}
      end
  end.

End Bot.

(** ** api_server.py *)

Module Api.

(** [verify_api_key] (lines 53-73). *)
Definition key_matches (key : string) (k : ApiKey) : bool :=
  String.eqb (api_key k) key && active k.

Definition touch (now : Z) (k : ApiKey) : ApiKey :=
  {| key_user_id := key_user_id k;
     api_key := api_key k;
     created_at := created_at k;
     last_used := Some now;
     requests_count := requests_count k + 1;
     active := active k |}.

Definition verify_api_key (authorization : option string) (now : Z)
    (keys : ApiKeys) : Outcome Z * ApiKeys :=
  match authorization with
  | None => (Raises (HTTPException 401 "Invalid authorization header"), keys)
  | Some header =>
      if negb (Py.startswith "Bearer " header)
      then (Raises (HTTPException 401 "Invalid authorization header"), keys)
      else
        let key := Py.remove_all "Bearer " header in
        match list_find (fun k => key_matches key k = true) keys with
        | None => (Raises (HTTPException 401 "Invalid or inactive API key"), keys)
        | Some (i, key_doc) =>
            (Returns (key_user_id key_doc), alter (touch now) i keys)
        end
  end.

(** [check_website] (lines 75-97): one handler for every [Exception],
    the timeout included. *)
Definition check_website (w : Wire) : CheckResult :=
  match reply w with
  | Responds code =>
      {| res_status := if Z.ltb code 500 then up else down;
         res_status_code := code;
         res_response_time := elapsed_ms w;
         res_checked_at := utcnow w;
         res_error := None |}
  | TimesOut text | Fails text =>
      {| res_status := down;
         res_status_code := 0;
         res_response_time := elapsed_ms w;
         res_checked_at := utcnow w;
         res_error := Some text |}
  end.

Definition valid_intervals : list string :=
  ["10sec"; "30sec"; "1min"; "2min"; "3min"; "5min"; "10min"; "15min";
   "30min"; "1hour"].

Definition is_valid_interval (key : string) : bool :=
  existsb (String.eqb key) valid_intervals.

(** [add_website] (lines 112-166).  [request_url] is [str(request.url)],
    [oid] the ObjectId generated for the new document. *)
Definition add_website (request_url request_interval : string) (uid : Z)
    (w : Wire) (now : Z) (oid : ObjectId) (db : Websites)
    : Outcome (ObjectId * Website) * Websites * list Event :=
  if negb (is_valid_interval request_interval)
  then (Raises (HTTPException 400
                  ("Invalid interval. Must be one of: "
                   ++ String.concat ", " valid_intervals)), db, [])
  else if has_url uid request_url db
  then (Raises (HTTPException 400 "Website already exists"), db, [])
  else
    let check_result := check_website w in
    match lookup_interval request_interval INTERVALS with
    | None => (Raises (Error "KeyError"), db, [Probed request_url])
    | Some seconds =>
        let doc :=
          website_data uid request_url request_interval seconds now check_result in
        match db !! oid with
        | Some _ => (Raises (Error "DuplicateKeyError"), db, [Probed request_url])
        | None => (Returns (oid, doc), <[oid := doc]> db, [Probed request_url])
        end
    end.

(** [update_website] (lines 213-258): first the part after
    [update_data] is built, then the handler. *)
Definition commit_settings (website_id : string) (update_data : Settings)
    (uid : Z) (db : Websites) : Outcome Settings * Websites * list Event :=
  match set_interval update_data, set_notifications update_data with
  | None, None => (Raises (HTTPException 400 "No update data provided"), db, [])
  | _, _ =>
      match parse_ObjectId website_id with
      | None => (Raises (HTTPException 400 "Invalid website ID"), db, [])
      | Some oid =>
          match find_owned oid uid db with
          | None => (Raises (HTTPException 404 "Website not found"), db, [])
          | Some _ =>
              (Returns update_data,
               apply_op (SetSettings oid uid update_data) db,
               [Updated oid true])
          end
      end
  end.

Definition update_website (website_id : string)
    (request_interval : option string) (request_notifications : option bool)
    (uid : Z) (db : Websites) : Outcome Settings * Websites * list Event :=
  match (if Py.truthy_str request_interval then request_interval else None) with
  | Some key =>
      if negb (is_valid_interval key)
      then (Raises (HTTPException 400 "Invalid interval"), db, [])
      else
        match lookup_interval key INTERVALS with
        | None => (Raises (Error "KeyError"), db, [])
        | Some seconds =>
            commit_settings website_id
              {| set_interval := Some (key, seconds);
                 set_notifications := request_notifications |} uid db
        end
  | None =>
      commit_settings website_id
        {| set_interval := None;
           set_notifications := request_notifications |} uid db
  end.

(** [delete_website] (lines 260-282). *)
Definition delete_website (website_id : string) (uid : Z) (db : Websites)
    : Outcome string * Websites * list Event :=
  match parse_ObjectId website_id with
  | None => (Raises (HTTPException 400 "Invalid website ID"), db, [])
  | Some oid =>
      match find_owned oid uid db with
      | None => (Raises (HTTPException 404 "Website not found"), db, [])
      | Some _ => (Returns website_id, apply_op (DeleteOne oid uid) db, [])
      end
  end.

(** [manual_check] (lines 325-374).  [during_probe] is what other
    handlers commit between this handler's [find_one] and its
    [update_one], while it awaits the probe. *)
Definition manual_check (website_id : string) (uid : Z) (w : Wire)
    (during_probe : list Op) (db : Websites)
    : Outcome CheckResult * Websites * list Event :=
  match parse_ObjectId website_id with
  | None => (Raises (HTTPException 400 "Invalid website ID"), db, [])
  | Some oid =>
      match find_owned oid uid db with
      | None => (Raises (HTTPException 404 "Website not found"), db, [])
      | Some website =>
          let check_result := check_website w in
          let db := apply_ops during_probe db in
          match aggregate website check_result with
          | None => (Raises (Error "division by zero"), db, [Probed (url website)])
          | Some k =>
              (Returns check_result,
               update_one oid
                 (set_check check_result (new_uptime k) (new_total k)
                    (new_successful k)) db,
               [Probed (url website); Updated oid (matched_count oid db)])
          end
      end
  end.

(** The database as the API process sees it, and an endpoint with its
    [Depends(verify_api_key)]. *)
Record Mongo := {
  websites : Websites;
  api_keys : ApiKeys
}.

Definition Depends {A} (authorization : option string) (now : Z)
    (handler : Z -> Websites -> Outcome A * Websites * list Event)
    (m : Mongo) : Outcome A * Mongo * list Event :=
  match verify_api_key authorization now (api_keys m) with
  | (Returns uid, keys) =>
      let '(r, db, evs) := handler uid (websites m) in
      (r, {| websites := db; api_keys := keys |}, evs)
  | (Raises e, keys) =>
      (Raises e, {| websites := websites m; api_keys := keys |}, [])
  end.

End Api.

(** ** Statements shared by the theorems *)

(** The derived field as the specification words it:
    successfulChecks / totalChecks x 100. *)
Definition spec_uptime (successful total : Z) : Q :=
  (inject_Z successful / inject_Z total * inject_Z 100)%Q.

(** The invariant of the data model on the two counters. *)
Definition counters_ok (site : Website) : Prop :=
  0 <= get (successful_checks site) 0 <= get (total_checks site) 0.

(** [site'] is [site] after one application of the aggregator to
    [result]. *)
Definition aggregated (site : Website) (result : CheckResult) (site' : Website)
    : Prop :=
  total_checks site' = Some (get (total_checks site) 0 + 1)
  /\ successful_checks site' =
       Some (get (successful_checks site) 0
             + (if Status_eqb (res_status result) up then 1 else 0))
  /\ Qeq (uptime_percentage site')
         (spec_uptime (get (successful_checks site') 0) (get (total_checks site') 0)).

(** A cycle in which no database call fails and nobody else writes. *)
Definition undisturbed (c : Bot.Cycle) : Prop :=
  Bot.find_fault c = None /\ Bot.update_fault c = None
  /\ Bot.during_probe c = [] /\ Bot.during_sleep c = [].

(** ** Sample data used by the closed instances below *)

Definition wire_200 : Wire :=
  {| reply := Responds 200; start_time := 0; end_time := 1 # 20; utcnow := 1000 |}.

Definition wire_503 : Wire :=
  {| reply := Responds 503; start_time := 0; end_time := 1 # 20; utcnow := 2000 |}.

Definition wire_timeout : Wire :=
  {| reply := TimesOut ""; start_time := 0; end_time := 10; utcnow := 3000 |}.

(** A target of user 5 that has been checked ten times, eight of them up. *)
Definition site_a : Website :=
  {| user_id := 5;
     url := "https://a.example/";
     interval := "10sec";
     interval_seconds := 10;
     added_at := 900;
     status := up;
     last_checked := 990;
     last_status_code := 200;
     last_response_time := 50;
     uptime_percentage := 80;
     total_checks := Some 10;
     successful_checks := Some 8;
     notifications_enabled := Some true |}.

Definition id_a : string := "000000000000000000000001".

Definition db_a : Websites := {[ 1%N := site_a ]}.

Definition quiet_cycle (w : Wire) : Bot.Cycle :=
  {| Bot.find_fault := None;
     Bot.wire := w;
     Bot.during_probe := [];
     Bot.update_fault := None;
     Bot.bot_fault := None;
     Bot.clock := utcnow w;
     Bot.send_fault := false;
     Bot.during_sleep := [] |}.

(** The number of probes in a trace. *)
Fixpoint probes (t : list Event) : nat :=
  match t with
  | [] => O
  | e :: t' => if is_probe e then S (probes t') else probes t'
  end.

(** The collection after a cycle that found [site] and committed: the
    writes of others during the probe, the cycle's own update, the writes
    of others during the sleep. *)
Definition committed (website_id : ObjectId) (c : Bot.Cycle) (site : Website)
    (db : Websites) : Websites :=
  match aggregate site (Bot.check_website (Bot.wire c)) with
  | Some k =>
      apply_ops (Bot.during_sleep c)
        (update_one website_id
           (set_check (Bot.check_website (Bot.wire c))
              (new_uptime k) (new_total k) (new_successful k))
           (apply_ops (Bot.during_probe c) db))
  | None => db
  end.

(** A cycle whose [update_one] raises, and one whose alert cannot be
    delivered. *)
Definition cycle_update_fails (w : Wire) : Bot.Cycle :=
  {| Bot.find_fault := None;
     Bot.wire := w;
     Bot.during_probe := [];
     Bot.update_fault := Some "AutoReconnect";
     Bot.bot_fault := None;
     Bot.clock := utcnow w;
     Bot.send_fault := false;
     Bot.during_sleep := [] |}.

Definition cycle_send_fails (w : Wire) : Bot.Cycle :=
  {| Bot.find_fault := None;
     Bot.wire := w;
     Bot.during_probe := [];
     Bot.update_fault := None;
     Bot.bot_fault := None;
     Bot.clock := utcnow w;
     Bot.send_fault := true;
     Bot.during_sleep := [] |}.

(** Checks of one target run one after another: a manual check through
    the API or a cycle of the monitoring loop, each completing its
    read-modify-write before the next one reads. *)
Inductive Check :=
| Manual (w : Wire)
| Periodic (c : Bot.Cycle).

Definition run_check (website_id : string) (oid : ObjectId) (uid : Z)
    (k : Check) (db : Websites) : Websites :=
  match k with
  | Manual w => (Api.manual_check website_id uid w [] db).1.2
  | Periodic c => (Bot.cycle oid uid c db).1.2
  end.

Definition run_checks (website_id : string) (oid : ObjectId) (uid : Z)
    (ks : list Check) (db : Websites) : Websites :=
  fold_left (fun d k => run_check website_id oid uid k d) ks db.

Definition serial (k : Check) : Prop :=
  match k with
  | Manual _ => True
  | Periodic c => undisturbed c
  end.

(** [op] is an insertion under the id [oid]. *)
Definition reinserts (oid : ObjectId) (o : Op) : bool :=
  match o with
  | InsertOne oid' _ => N.eqb oid' oid
  | _ => false
  end.

(** A target whose counters are still zero, and what a manual check that
    reads it and sees HTTP 200 commits. *)
Definition site_zero : Website :=
  {| user_id := 5;
     url := "https://a.example/";
     interval := "10sec";
     interval_seconds := 10;
     added_at := 900;
     status := up;
     last_checked := 990;
     last_status_code := 200;
     last_response_time := 50;
     uptime_percentage := 100;
     total_checks := Some 0;
     successful_checks := Some 0;
     notifications_enabled := Some true |}.

Definition db_zero : Websites := {[ 1%N := site_zero ]}.

Definition commit_of_other_check : Op :=
  SetCheck 1%N (Api.check_website wire_200) (spec_uptime 1 1) 1 1.

Definition cycle_raced (w : Wire) (others : list Op) : Bot.Cycle :=
  {| Bot.find_fault := None;
     Bot.wire := w;
     Bot.during_probe := others;
     Bot.update_fault := None;
     Bot.bot_fault := None;
     Bot.clock := utcnow w;
     Bot.send_fault := false;
     Bot.during_sleep := [] |}.

(** What happens to [api_keys] over time: a user presses the bot's
    generate/regenerate button, or a request reaches the API. *)
Inductive KeyEvent :=
| Regenerate (uid : Z) (token : string) (now : Z)
| Request (authorization : option string) (now : Z).

Definition key_step (e : KeyEvent) (keys : ApiKeys) : ApiKeys :=
  match e with
  | Regenerate uid token now => (Bot.generate_new_api_key uid token now keys).2
  | Request authorization now => (Api.verify_api_key authorization now keys).2
  end.

Definition run_keys (evs : list KeyEvent) (keys : ApiKeys) : ApiKeys :=
  fold_left (fun ks e => key_step e ks) evs keys.

(** The active keys of a user. *)
Definition active_of (uid : Z) (keys : ApiKeys) : list ApiKey :=
  List.filter (fun k => Z.eqb (key_user_id k) uid && active k) keys.

(** The event hands out [token] as a new key. *)
Definition issues (token : string) (e : KeyEvent) : bool :=
  match e with
  | Regenerate _ t _ => String.eqb t token
  | Request _ _ => false
  end.

Definition new_key (uid : Z) (token : string) (now : Z) : ApiKey :=
  {| key_user_id := uid;
     api_key := token;
     created_at := now;
     last_used := None;
     requests_count := 0;
     active := true |}.

(** User 5 holds the key "first-key". *)
Definition keys_a : ApiKeys := (Bot.generate_new_api_key 5 "first-key" 10 []).2.

Definition mongo_a : Api.Mongo :=
  {| Api.websites := db_a; Api.api_keys := keys_a |}.

Definition id_unknown : string := "000000000000000000000002".

(** No active document carries the key [old]. *)
Definition retired (old : string) (keys : ApiKeys) : Prop :=
  forall k, In k keys -> api_key k = old -> active k = false.

(** ** The read endpoints of api_server.py *)

Module ApiRead.

(** [get_website] (api_server.py 185-211); the answer carries the
    document, its [_id] and dates rendered as strings. *)
Definition get_website (website_id : string) (uid : Z) (db : Websites)
    : Outcome Website :=
  match parse_ObjectId website_id with
  | None => Raises (HTTPException 400 "Invalid website ID")
  | Some oid =>
      match find_owned oid uid db with
      | None => Raises (HTTPException 404 "Website not found")
      | Some website => Returns website
      end
  end.

(** [list_websites] (api_server.py 168-183):
    [find({'user_id': user_id}).to_list(None)] and its length.  The order
    of the answer is the collection's; here it is the order of the keys. *)
Definition list_websites (uid : Z) (db : Websites)
    : list (ObjectId * Website) * nat :=
  let websites :=
    List.filter (fun kw => Z.eqb (user_id (snd kw)) uid) (map_to_list db) in
  (websites, length websites).

End ApiRead.

(** ** The chat handlers of bot.py *)

Module Chat.

(** [context.user_data], by the three keys the handlers use; a missing key
    reads as falsy, [clear()] gives [no_data]. *)
Record UserData := {
  awaiting_url : bool;
  pending_url : option string;
  awaiting_broadcast : bool
}.

Definition no_data : UserData :=
  {| awaiting_url := false; pending_url := None; awaiting_broadcast := false |}.

(** A document of the [users] collection. *)
Record User := {
  user_id : Z;
  username : option string;
  first_name : string;
  joined_at : Z
}.

(** [update_one({'user_id': id}, {'$set': doc}, upsert=True)] on a list
    in insertion order: the first match is overwritten, without a match
    the document is appended. *)
Fixpoint upsert (u : User) (users : list User) : list User :=
  match users with
  | [] => [u]
  | v :: rest =>
      if Z.eqb (user_id v) (user_id u) then u :: rest else v :: upsert u rest
  end.

(** The database part of [start] (bot.py 105-120). *)
Definition start (id : Z) (name : option string) (first : string) (now : Z)
    (users : list User) : list User :=
  upsert {| user_id := id; username := name; first_name := first;
            joined_at := now |} users.

(** [add_website_start] (bot.py 155-167). *)
Definition add_website_start (d : UserData) : UserData :=
  {| awaiting_url := true;
     pending_url := pending_url d;
     awaiting_broadcast := awaiting_broadcast d |}.

(** [broadcast_start] (bot.py 671-684); [true] when the prompt is shown,
    [false] for the answer "Unauthorized". *)
Definition broadcast_start (admin_ids : list Z) (from_user : Z) (d : UserData)
    : bool * UserData :=
  if existsb (Z.eqb from_user) admin_ids
  then (true,
        {| awaiting_url := awaiting_url d;
           pending_url := pending_url d;
           awaiting_broadcast := true |})
  else (false, d).

(** [cancel] (bot.py 686-689). *)
Definition cancel (d : UserData) : UserData := no_data.

(** The scheme rule of [handle_message] (bot.py 252-253). *)
Definition with_scheme (u : string) : string :=
  if Py.startswith "http://" u || Py.startswith "https://" u
  then u
  else "https://" ++ u.

(** The broadcast loop (bot.py 295-310): one attempt per document of
    [users]; [delivers] tells for which chat [send_message] returns. *)
Fixpoint broadcast (delivers : Z -> bool) (users : list User)
    (sent failed : nat) : nat * nat * list Z :=
  match users with
  | [] => (sent, failed, [])
  | u :: rest =>
      if delivers (user_id u)
      then
        let '(s, f, reached) := broadcast delivers rest (S sent) failed in
        (s, f, user_id u :: reached)
      else broadcast delivers rest sent (S failed)
  end.

(** What [handle_message] did. *)
Inductive Reaction :=
| AskedInterval (u : string) (result : CheckResult)
| Broadcasted (sent failed : nat) (reached : list Z)
| Ignored.

(** [handle_message] (bot.py 247-318).  [stripped] is
    [update.message.text.strip()], [text] the text as sent. *)
Definition handle_message (admin_ids : list Z) (from_user : Z)
    (text stripped : string) (w : Wire) (delivers : Z -> bool)
    (users : list User) (d : UserData) : Reaction * UserData :=
  if awaiting_url d then
    let u := with_scheme stripped in
    let result := Bot.check_website w in
    (AskedInterval u result,
     {| awaiting_url := false;
        pending_url := Some u;
        awaiting_broadcast := awaiting_broadcast d |})
  else if awaiting_broadcast d then
    if existsb (Z.eqb from_user) admin_ids then
      let '(sent, failed, reached) := broadcast delivers users O O in
      (Broadcasted sent failed reached,
       {| awaiting_url := awaiting_url d;
          pending_url := pending_url d;
          awaiting_broadcast := false |})
    else (Ignored, d)
  else (Ignored, d).

(** The handler [button_callback] (bot.py 559-583) passes the update to. *)
Inductive Handler :=
| AddWebsiteStart
| ListWebsites
| ShowStats
| ApiKeyMenu
| GenerateNewApiKey
| ShowApiDocs
| HelpCommand
| BroadcastStart
| IntervalSelection (interval_key : string)
| StartMenu
| NoHandler.

Definition button_callback (data : string) : Handler :=
  if String.eqb data "add_website" then AddWebsiteStart
  else if String.eqb data "list_websites" then ListWebsites
  else if String.eqb data "show_stats" then ShowStats
  else if String.eqb data "api_key_menu" then ApiKeyMenu
  else if String.eqb data "generate_api_key" || String.eqb data "regenerate_api_key"
  then GenerateNewApiKey
  else if String.eqb data "api_docs" then ShowApiDocs
  else if String.eqb data "help" then HelpCommand
  else if String.eqb data "broadcast" then BroadcastStart
  else if Py.startswith "interval_" data
  then IntervalSelection (Py.remove_all "interval_" data)
  else if String.eqb data "back_to_menu" then StartMenu
  else NoHandler.

(** The [callback_data] of the ten buttons of the interval keyboard
    (bot.py 174-185 and 263-274). *)
Definition interval_buttons : list string :=
  ["interval_10sec"; "interval_30sec"; "interval_1min"; "interval_2min";
   "interval_3min"; "interval_5min"; "interval_10min"; "interval_15min";
   "interval_30min"; "interval_1hour"].


End Chat.

(** ** Measures on runs of the loop *)

(** The status each cycle of a script probes. *)
Definition probed (script : list Bot.Cycle) : list Status :=
  map (fun c => res_status (Bot.check_website (Bot.wire c))) script.

(** How many of a list of statuses are up. *)
Fixpoint ups (ss : list Status) : Z :=
  match ss with
  | [] => 0
  | s :: rest => (if Status_eqb s up then 1 else 0) + ups rest
  end.

(** How often the status changes along [s0 :: ss]. *)
Fixpoint transitions (s0 : Status) (ss : list Status) : nat :=
  match ss with
  | [] => O
  | s :: rest => ((if Status_eqb s0 s then 0 else 1) + transitions s rest)%nat
  end.

(** The number of alerts in a trace. *)
Fixpoint alerts (t : list Event) : nat :=
  match t with
  | [] => O
  | e :: t' => if is_sent e then S (alerts t') else alerts t'
  end.

(** A cycle without database or client fault in which nobody else
    writes. *)
Definition smooth (c : Bot.Cycle) : Prop :=
  undisturbed c /\ Bot.bot_fault c = None.


(** Sample data for the closed instances of the additional theorems. *)
Definition users_a : list Chat.User :=
  [{| Chat.user_id := 5; Chat.username := Some "ann"; Chat.first_name := "Ann";
      Chat.joined_at := 1 |};
   {| Chat.user_id := 6; Chat.username := None; Chat.first_name := "Bob";
      Chat.joined_at := 2 |}].

(** * Theorems *)

Lemma Status_eqb_spec a b : reflect (a = b) (Status_eqb a b).
Proof. destruct a, b; constructor; congruence. Qed.

Lemma Status_eqb_refl a : Status_eqb a a = true.
Proof. by destruct a. Qed.

(** ** The prober *)

Lemma bot_check_website_status w :
  res_status (Bot.check_website w) = up
  <-> exists code, reply w = Responds code /\ code < 500.
Proof.
  unfold Bot.check_website. split.
  - destruct (reply w) as [code| |]; simpl; try discriminate.
    destruct (Z.ltb_spec code 500); [eauto | discriminate].
  - intros (code & -> & Hlt). simpl.
    destruct (Z.ltb_spec code 500); [done | lia].
Qed.

Lemma api_check_website_status w :
  res_status (Api.check_website w) = up
  <-> exists code, reply w = Responds code /\ code < 500.
Proof.
  unfold Api.check_website. split.
  - destruct (reply w) as [code| |]; simpl; try discriminate.
    destruct (Z.ltb_spec code 500); [eauto | discriminate].
  - intros (code & -> & Hlt). simpl.
    destruct (Z.ltb_spec code 500); [done | lia].
Qed.

(** Transport failures give status code 0 and a populated response time
    in both probers. *)
Lemma check_website_failure w :
  (forall code, reply w <> Responds code) ->
  res_status (Bot.check_website w) = down
  /\ res_status_code (Bot.check_website w) = 0
  /\ res_status (Api.check_website w) = down
  /\ res_status_code (Api.check_website w) = 0
  /\ res_response_time (Bot.check_website w) = elapsed_ms w
  /\ res_response_time (Api.check_website w) = elapsed_ms w.
Proof.
  unfold Bot.check_website, Api.check_website.
  destruct (reply w) as [code| |]; [intros H; by destruct (H code) | done | done].
Qed.

(** C4 (evaluation at the failing input).  The API's prober has no branch
    for [asyncio.TimeoutError]: the outcome of a timed-out request is the
    outcome of any other failed request with the same exception text, so
    its error field does not tell a timeout from another transport error,
    whereas the bot's prober reports the fixed cause ["Timeout"]. *)
Theorem api_check_website_timeout_not_distinguished :
  forall text t0 t1 now,
    Api.check_website
      {| reply := TimesOut text; start_time := t0; end_time := t1; utcnow := now |}
    = Api.check_website
        {| reply := Fails text; start_time := t0; end_time := t1; utcnow := now |}
    /\ res_error (Api.check_website
         {| reply := TimesOut text; start_time := t0; end_time := t1; utcnow := now |})
       = Some text
    /\ res_error (Bot.check_website
         {| reply := TimesOut text; start_time := t0; end_time := t1; utcnow := now |})
       = Some "Timeout".
Proof. intros. repeat split. Qed.

(** ** The transition detector *)

(** C5.  [shouldNotify] is true exactly when the stored status differs from
    the new one and notifications are enabled; the four sample points of
    the specification evaluate as listed. *)
Theorem shouldNotify_iff :
  (forall previous new enabled,
      shouldNotify previous new enabled = true
      <-> previous <> new /\ enabled = true)
  /\ shouldNotify up up true = false
  /\ shouldNotify up down true = true
  /\ shouldNotify up down false = false
  /\ shouldNotify down up true = true.
Proof.
  split; [| by repeat split].
  intros previous new enabled. unfold shouldNotify.
  destruct (Status_eqb_spec previous new) as [Heq | Hne], enabled; simpl;
    split; try discriminate; try tauto; intros [? ?]; congruence.
Qed.

(** The loop alerts exactly when the detector says so: in a cycle that
    reaches the notification step, an alert is among the events iff
    [shouldNotify] holds of the status read before the update, the status
    just probed and the flag read with the record. *)
Lemma cycle_alerts_iff website_id uid c (db : Websites) site k :
  Bot.find_fault c = None ->
  db !! website_id = Some site ->
  aggregate site (Bot.check_website (Bot.wire c)) = Some k ->
  Bot.update_fault c = None ->
  Bot.bot_fault c = None ->
  existsb is_sent (Bot.cycle website_id uid c db).2
  = shouldNotify (status site) (res_status (Bot.check_website (Bot.wire c)))
      (get (notifications_enabled site) true).
Proof.
  intros Hf Hsite Hagg Hu Hb. unfold Bot.cycle.
  rewrite Hf, Hsite, Hagg, Hu, Hb. by destruct (shouldNotify _ _ _).
Qed.

(** ** The statistics aggregator *)

Lemma aggregate_Some site result :
  0 <= get (total_checks site) 0 ->
  aggregate site result =
    Some {| new_total := get (total_checks site) 0 + 1;
            new_successful :=
              (if Status_eqb (res_status result) up
               then get (successful_checks site) 0 + 1
               else get (successful_checks site) 0);
            new_uptime :=
              spec_uptime
                (if Status_eqb (res_status result) up
                 then get (successful_checks site) 0 + 1
                 else get (successful_checks site) 0)
                (get (total_checks site) 0 + 1) |}.
Proof.
  intros Hpos. unfold aggregate, Py.truediv.
  destruct (Z.eqb_spec (get (total_checks site) 0 + 1) 0) as [Hz | _]; [lia | done].
Qed.

Lemma set_check_aggregated site result k :
  aggregate site result = Some k ->
  aggregated site result
    (set_check result (new_uptime k) (new_total k) (new_successful k) site).
Proof.
  unfold aggregate, Py.truediv.
  destruct (Z.eqb_spec (get (total_checks site) 0 + 1) 0); [discriminate |].
  intros [= <-]. unfold aggregated, spec_uptime. simpl.
  repeat split; try reflexivity.
  destruct (Status_eqb (res_status result) up); f_equal; lia.
Qed.

(** The invariant [0 <= successful <= total] survives every application. *)
Lemma aggregated_counters_ok site result site' :
  counters_ok site -> aggregated site result site' -> counters_ok site'.
Proof.
  unfold counters_ok, aggregated. intros Hok (-> & -> & _). simpl.
  destruct (Status_eqb (res_status result) up); lia.
Qed.

Lemma update_one_lookup oid f (db : Websites) site :
  db !! oid = Some site -> update_one oid f db !! oid = Some (f site).
Proof. intros H. unfold update_one. rewrite H. apply lookup_insert_eq. Qed.

(** The record a quiet cycle leaves behind. *)
Lemma cycle_writes website_id uid c (db : Websites) site k :
  undisturbed c ->
  db !! website_id = Some site ->
  aggregate site (Bot.check_website (Bot.wire c)) = Some k ->
  (Bot.cycle website_id uid c db).1.2 !! website_id =
    Some (set_check (Bot.check_website (Bot.wire c))
            (new_uptime k) (new_total k) (new_successful k) site).
Proof.
  intros (Hf & Hu & Hp & Hs) Hsite Hagg. unfold Bot.cycle.
  rewrite Hf, Hsite, Hp, Hagg, Hu, Hs. simpl.
  destruct (shouldNotify _ _ _); [destruct (Bot.bot_fault c) |]; simpl;
    by apply update_one_lookup.
Qed.

Lemma find_owned_Some oid uid (db : Websites) site :
  db !! oid = Some site -> user_id site = uid -> find_owned oid uid db = Some site.
Proof.
  intros H <-. unfold find_owned. rewrite H. by rewrite Z.eqb_refl.
Qed.

(** What an uninterrupted manual check returns, writes and emits. *)
Lemma manual_check_found website_id oid uid w (db : Websites) site k :
  parse_ObjectId website_id = Some oid ->
  db !! oid = Some site ->
  user_id site = uid ->
  aggregate site (Api.check_website w) = Some k ->
  Api.manual_check website_id uid w [] db =
    (Returns (Api.check_website w),
     <[oid := set_check (Api.check_website w)
                (new_uptime k) (new_total k) (new_successful k) site]> db,
     [Probed (url site); Updated oid true]).
Proof.
  intros Hid Hsite Hu Hagg. unfold Api.manual_check.
  rewrite Hid, (find_owned_Some _ _ _ _ Hsite Hu). simpl. rewrite Hagg.
  unfold update_one, matched_count. rewrite Hsite.
  by rewrite bool_decide_eq_true_2.
Qed.

(** C2.  One application of the aggregator adds one to [total_checks], adds
    one to [successful_checks] exactly when the outcome is up, and sets
    [uptime_percentage] to successful/total*100 of the new counters; the
    record left by a cycle of the monitoring loop and the record left by a
    manual check are both obtained this way. *)
Theorem aggregator_step site result :
  0 <= get (total_checks site) 0 ->
  (exists k, aggregate site result = Some k
     /\ new_total k = get (total_checks site) 0 + 1
     /\ new_successful k =
          get (successful_checks site) 0
          + (if Status_eqb (res_status result) up then 1 else 0)
     /\ Qeq (new_uptime k) (spec_uptime (new_successful k) (new_total k)))
  /\ (forall website_id uid c (db : Websites),
        db !! website_id = Some site ->
        undisturbed c ->
        Bot.check_website (Bot.wire c) = result ->
        exists site',
          (Bot.cycle website_id uid c db).1.2 !! website_id = Some site'
          /\ aggregated site result site')
  /\ (forall website_id oid w (db : Websites),
        parse_ObjectId website_id = Some oid ->
        db !! oid = Some site ->
        Api.check_website w = result ->
        exists site',
          (Api.manual_check website_id (user_id site) w [] db).1.2 !! oid = Some site'
          /\ aggregated site result site').
Proof.
  intros Hpos. split; [| split].
  - eexists. split; [by apply aggregate_Some |]. simpl.
    destruct (Status_eqb (res_status result) up); repeat split; try lia; reflexivity.
  - intros website_id uid c db Hsite Hq <-.
    pose proof (aggregate_Some site (Bot.check_website (Bot.wire c)) Hpos) as Hagg.
    eexists. split; [by eapply cycle_writes |].
    apply (set_check_aggregated _ _ _ Hagg).
  - intros website_id oid w db Hid Hsite <-.
    pose proof (aggregate_Some site (Api.check_website w) Hpos) as Hagg.
    rewrite (manual_check_found _ _ _ _ _ _ _ Hid Hsite eq_refl Hagg).
    eexists. split; [apply lookup_insert_eq |].
    apply (set_check_aggregated _ _ _ Hagg).
Qed.

Lemma aggregator_step_witness :
  exists site',
    (Bot.cycle 1%N 5 (quiet_cycle wire_200) db_a).1.2 !! 1%N = Some site'
    /\ aggregated site_a (Bot.check_website wire_200) site'.
Proof.
  assert (H : 0 <= get (total_checks site_a) 0) by (simpl; lia).
  apply (proj1 (proj2 (aggregator_step site_a (Bot.check_website wire_200) H))).
  - reflexivity.
  - by repeat split.
  - reflexivity.
Defined.

(** ** Target creation *)

(** Both creation paths store [website_data]. *)
Lemma add_website_stores request_url request_interval uid w now oid
    (db db' : Websites) doc evs :
  Api.add_website request_url request_interval uid w now oid db
    = (Returns (oid, doc), db', evs) ->
  db' !! oid = Some doc
  /\ exists seconds,
       doc = website_data uid request_url request_interval seconds now
               (Api.check_website w).
Proof.
  unfold Api.add_website.
  destruct (negb _); [discriminate |].
  destruct (has_url _ _ _); [discriminate |].
  destruct (lookup_interval _ _) as [seconds |]; [| discriminate].
  destruct (db !! oid); [discriminate |].
  intros [= <- <- _]. split; [apply lookup_insert_eq | eauto].
Qed.

Lemma handle_interval_selection_stores from_user pending_url interval_key w now
    oid (db db' : Websites) doc evs :
  Bot.handle_interval_selection from_user pending_url interval_key w now oid db
    = (Returns (oid, doc), db', evs) ->
  db' !! oid = Some doc
  /\ exists seconds,
       doc = website_data from_user pending_url interval_key seconds now
               (Bot.check_website w).
Proof.
  unfold Bot.handle_interval_selection.
  destruct (lookup_interval _ _) as [seconds |]; [| discriminate].
  destruct (db !! oid); [discriminate |].
  intros [= <- <- _]. split; [apply lookup_insert_eq | eauto].
Qed.

(** Every creation record satisfies the counter invariant. *)
Lemma website_data_counters_ok uid u key seconds now result :
  counters_ok (website_data uid u key seconds now result).
Proof.
  unfold counters_ok. simpl.
  destruct (Status_eqb (res_status result) up); simpl; lia.
Qed.

(** The creation record satisfies the counter invariant, and its stored
    percentage agrees with the counters when the first probe is up. *)
Lemma website_data_up uid u key seconds now result :
  res_status result = up ->
  let doc := website_data uid u key seconds now result in
  counters_ok doc
  /\ Qeq (uptime_percentage doc)
         (spec_uptime (get (successful_checks doc) 0) (get (total_checks doc) 0)).
Proof.
  intros H. unfold counters_ok, spec_uptime. simpl. rewrite H. simpl.
  split; [lia | reflexivity].
Qed.

(** C1 (evaluation at the failing input).  When the initial probe is down,
    the record built for insertion has [total_checks = 1],
    [successful_checks = 0] and [uptime_percentage = 100.0]: the stored
    percentage is the constant 100, not 0/1*100 = 0. *)
Theorem creation_record_when_down uid u key seconds now result :
  res_status result = down ->
  let doc := website_data uid u key seconds now result in
  total_checks doc = Some 1
  /\ successful_checks doc = Some 0
  /\ Qeq (uptime_percentage doc) (inject_Z 100)
  /\ ~ Qeq (uptime_percentage doc)
          (spec_uptime (get (successful_checks doc) 0) (get (total_checks doc) 0)).
Proof.
  intros H. simpl. rewrite H. simpl. repeat split; try reflexivity.
  unfold spec_uptime, Qeq. simpl. lia.
Qed.

Lemma creation_record_when_down_witness :
  let doc := website_data 5 "https://a.example/" "1min" 60 100
               (Api.check_website wire_503) in
  total_checks doc = Some 1
  /\ successful_checks doc = Some 0
  /\ Qeq (uptime_percentage doc) (inject_Z 100)
  /\ ~ Qeq (uptime_percentage doc)
          (spec_uptime (get (successful_checks doc) 0) (get (total_checks doc) 0)).
Proof.
  apply (creation_record_when_down 5 "https://a.example/" "1min" 60 100
           (Api.check_website wire_503)).
  reflexivity.
Defined.

(** ** The monitoring loop *)

Lemma probes_app t1 t2 : probes (t1 ++ t2)%list = (probes t1 + probes t2)%nat.
Proof.
  induction t1 as [| e t1 IH]; simpl; [done |].
  destruct (is_probe e); simpl; by rewrite IH.
Qed.

Lemma cycle_Break website_id uid c (db db' : Websites) evs :
  Bot.cycle website_id uid c db = (Bot.Break, db', evs) ->
  db' = db /\ evs = [] /\ db !! website_id = None.
Proof.
  unfold Bot.cycle. repeat case_match; intros [= <- <-]; done.
Qed.

Lemma cycle_Continue website_id uid c (db db' : Websites) evs :
  Bot.cycle website_id uid c db = (Bot.Continue, db', evs) ->
  probes evs = 1%nat
  /\ exists site, db !! website_id = Some site /\ db' = committed website_id c site db.
Proof.
  unfold Bot.cycle.
  repeat case_match; intros [= <- <-]; simplify_eq;
    (split; [done | eexists; split; [done |]]); unfold committed;
    match goal with H : aggregate _ _ = Some _ |- _ => by rewrite H end.
Qed.

(** An exception raised by [find_one] ends the loop at once. *)
Lemma monitor_website_find_fault website_id uid c rest (db : Websites) e :
  Bot.find_fault c = Some e ->
  Bot.monitor_website website_id uid (c :: rest) db =
    {| Bot.final := db; Bot.trace := [Logged e]; Bot.exit := Bot.Crashed e |}.
Proof. intros H. simpl. unfold Bot.cycle. by rewrite H. Qed.

(** So does an exception raised by [update_one]: nothing is written. *)
Lemma monitor_website_update_fault website_id uid c rest (db : Websites) site e :
  Bot.find_fault c = None ->
  db !! website_id = Some site ->
  0 <= get (total_checks site) 0 ->
  Bot.update_fault c = Some e ->
  Bot.monitor_website website_id uid (c :: rest) db =
    {| Bot.final := apply_ops (Bot.during_probe c) db;
       Bot.trace := [Probed (url site); Logged e];
       Bot.exit := Bot.Crashed e |}.
Proof.
  intros Hf Hsite Hpos Hu. simpl. unfold Bot.cycle.
  by rewrite Hf, Hsite, (aggregate_Some _ _ Hpos), Hu.
Qed.

(** An exception raised while building the Telegram client, which happens
    only when an alert is due, ends the loop after the record was written. *)
Lemma monitor_website_bot_fault website_id uid c rest (db : Websites) site e :
  Bot.find_fault c = None ->
  db !! website_id = Some site ->
  0 <= get (total_checks site) 0 ->
  Bot.update_fault c = None ->
  shouldNotify (status site) (res_status (Bot.check_website (Bot.wire c)))
    (get (notifications_enabled site) true) = true ->
  Bot.bot_fault c = Some e ->
  Bot.exit (Bot.monitor_website website_id uid (c :: rest) db) = Bot.Crashed e.
Proof.
  intros Hf Hsite Hpos Hu Hn Hb. simpl. unfold Bot.cycle.
  by rewrite Hf, Hsite, (aggregate_Some _ _ Hpos), Hu, Hn, Hb.
Qed.

(** Without a database or client fault the loop goes on to its next cycle
    from the committed collection, whether or not the alert was
    delivered. *)
Lemma monitor_website_proceeds website_id uid c rest (db : Websites) site :
  Bot.find_fault c = None ->
  db !! website_id = Some site ->
  0 <= get (total_checks site) 0 ->
  Bot.update_fault c = None ->
  Bot.bot_fault c = None ->
  let next := Bot.monitor_website website_id uid rest (committed website_id c site db) in
  let r := Bot.monitor_website website_id uid (c :: rest) db in
  Bot.final r = Bot.final next
  /\ Bot.exit r = Bot.exit next
  /\ exists evs,
       Bot.trace r = (evs ++ Bot.trace next)%list /\ probes evs = 1%nat
       /\ In (Updated website_id
                (matched_count website_id (apply_ops (Bot.during_probe c) db))) evs.
Proof.
  intros Hf Hsite Hpos Hu Hb. simpl. unfold Bot.cycle, committed.
  rewrite Hf, Hsite, (aggregate_Some _ _ Hpos), Hu, Hb.
  destruct (shouldNotify _ _ _); simpl; (split; [done | split; [done |]]).
  - eexists [_; _; _; _]. split; [reflexivity | split; [reflexivity | simpl; tauto]].
  - eexists [_; _; _]. split; [reflexivity | split; [reflexivity | simpl; tauto]].
Qed.

(** How a run can end: on a missing record, on a logged exception, or not
    at all within the script, in which case every cycle probed once. *)
Lemma monitor_website_exit_cases website_id uid script (db : Websites) :
  let r := Bot.monitor_website website_id uid script db in
  match Bot.exit r with
  | Bot.Stopped => Bot.final r !! website_id = None
  | Bot.Crashed e => exists pre, Bot.trace r = (pre ++ [Logged e])%list
  | Bot.Running => probes (Bot.trace r) = length script
  end.
Proof.
  revert db. induction script as [| c rest IH]; intros db; simpl; [done |].
  destruct (Bot.cycle website_id uid c db) as [[[] db'] evs] eqn:Hc; simpl.
  - specialize (IH db'). simpl in IH.
    apply cycle_Continue in Hc as (Hone & _).
    destruct (Bot.exit (Bot.monitor_website website_id uid rest db')); [done | |].
    + destruct IH as (pre & ->). exists (evs ++ pre)%list. by rewrite app_assoc.
    + rewrite probes_app, Hone, IH. done.
  - by apply cycle_Break in Hc as (-> & _ & ?).
  - by exists evs.
Qed.

(** C3 (amended).  An exception raised by [find_one] or [update_one] in a
    cycle is caught by the handler around the whole loop: it is logged and
    the run ends, no later cycle runs.  A failed delivery of the alert is
    swallowed: the loop goes on to its next cycle from the same committed
    collection.  A run that has ended either found its record missing or
    logged the exception that ended it. *)
Theorem monitor_website_failure_semantics website_id uid c rest (db : Websites) site :
  db !! website_id = Some site ->
  0 <= get (total_checks site) 0 ->
  (forall e, Bot.find_fault c = Some e ->
     Bot.monitor_website website_id uid (c :: rest) db =
       {| Bot.final := db; Bot.trace := [Logged e]; Bot.exit := Bot.Crashed e |})
  /\ (forall e, Bot.find_fault c = None -> Bot.update_fault c = Some e ->
       Bot.monitor_website website_id uid (c :: rest) db =
         {| Bot.final := apply_ops (Bot.during_probe c) db;
            Bot.trace := [Probed (url site); Logged e];
            Bot.exit := Bot.Crashed e |})
  /\ (Bot.find_fault c = None -> Bot.update_fault c = None -> Bot.bot_fault c = None ->
       let next :=
         Bot.monitor_website website_id uid rest (committed website_id c site db) in
       let r := Bot.monitor_website website_id uid (c :: rest) db in
       Bot.final r = Bot.final next /\ Bot.exit r = Bot.exit next
       /\ exists evs, Bot.trace r = (evs ++ Bot.trace next)%list /\ probes evs = 1%nat)
  /\ (forall script (db0 : Websites),
       let r := Bot.monitor_website website_id uid script db0 in
       match Bot.exit r with
       | Bot.Stopped => Bot.final r !! website_id = None
       | Bot.Crashed e => exists pre, Bot.trace r = (pre ++ [Logged e])%list
       | Bot.Running => probes (Bot.trace r) = length script
       end).
Proof.
  intros Hsite Hpos. repeat split.
  - intros e He. by apply monitor_website_find_fault.
  - intros e Hf Hu. by apply monitor_website_update_fault.
  - by apply monitor_website_proceeds.
  - by apply monitor_website_proceeds.
  - destruct (monitor_website_proceeds website_id uid c rest db site)
      as (_ & _ & evs & Htrace & Hone & _); eauto.
  - intros script db0. apply monitor_website_exit_cases.
Qed.

Lemma monitor_website_failure_semantics_witness :
  Bot.monitor_website 1%N 5
    [cycle_update_fails wire_200; quiet_cycle wire_200] db_a =
    {| Bot.final := db_a;
       Bot.trace := [Probed "https://a.example/"; Logged "AutoReconnect"];
       Bot.exit := Bot.Crashed "AutoReconnect" |}
  /\ Bot.exit (Bot.monitor_website 1%N 5
                 [cycle_send_fails wire_503; quiet_cycle wire_503] db_a)
     = Bot.Running.
Proof.
  assert (Hsite : db_a !! 1%N = Some site_a) by reflexivity.
  assert (Hpos : 0 <= get (total_checks site_a) 0) by (simpl; lia).
  split.
  - apply (proj1 (proj2 (monitor_website_failure_semantics 1%N 5
             (cycle_update_fails wire_200) [quiet_cycle wire_200] db_a site_a
             Hsite Hpos)) "AutoReconnect"); reflexivity.
  - reflexivity.
Defined.

(** C3 (counterexample).  The first of three scheduled cycles fails in
    [update_one]: the run logs the error and ends after a single probe;
    the two remaining cycles are never run. *)
Lemma monitor_website_ends_on_update_error :
  let r := Bot.monitor_website 1%N 5
             [cycle_update_fails wire_200; quiet_cycle wire_200; quiet_cycle wire_200]
             db_a in
  Bot.exit r = Bot.Crashed "AutoReconnect"
  /\ Bot.trace r = [Probed "https://a.example/"; Logged "AutoReconnect"]
  /\ probes (Bot.trace r) = 1%nat
  /\ Bot.final r = db_a.
Proof. by repeat split. Qed.

(** ** Checks racing on one target *)

Lemma run_check_serial website_id oid k (db : Websites) site :
  parse_ObjectId website_id = Some oid ->
  db !! oid = Some site ->
  0 <= get (total_checks site) 0 ->
  serial k ->
  exists site',
    run_check website_id oid (user_id site) k db !! oid = Some site'
    /\ total_checks site' = Some (get (total_checks site) 0 + 1)
    /\ user_id site' = user_id site.
Proof.
  intros Hid Hsite Hpos Hk. destruct k as [w | c]; unfold run_check.
  - rewrite (manual_check_found _ _ _ _ _ _ _ Hid Hsite eq_refl
               (aggregate_Some _ _ Hpos)).
    eexists. split; [apply lookup_insert_eq | done].
  - rewrite (cycle_writes _ _ _ _ _ _ Hk Hsite (aggregate_Some _ _ Hpos)).
    eexists. split; done.
Qed.

(** A manual check writes the total of the snapshot it read plus one,
    whatever others have committed while it awaited its probe. *)
Lemma manual_check_overwrites website_id oid w others (db : Websites) site current :
  parse_ObjectId website_id = Some oid ->
  db !! oid = Some site ->
  0 <= get (total_checks site) 0 ->
  apply_ops others db !! oid = Some current ->
  exists site',
    (Api.manual_check website_id (user_id site) w others db).1.2 !! oid = Some site'
    /\ total_checks site' = Some (get (total_checks site) 0 + 1).
Proof.
  intros Hid Hsite Hpos Hcur. unfold Api.manual_check.
  rewrite Hid, (find_owned_Some _ _ _ _ Hsite eq_refl). cbv zeta.
  rewrite (aggregate_Some _ _ Hpos). cbn [fst snd].
  rewrite (update_one_lookup _ _ _ _ Hcur). by eexists.
Qed.

(** C6 (amended).  When the manual checks and the cycles of the loop on a
    target run one after another, no increment is lost: [total_checks]
    grows by the number of checks, so from zero it equals the number of
    manual checks plus the number of committed cycles.  A check that is
    overtaken, others committing between its read and its write, still
    writes the total it read plus one. *)
Theorem serial_checks_lose_nothing website_id oid ks (db : Websites) site :
  parse_ObjectId website_id = Some oid ->
  db !! oid = Some site ->
  0 <= get (total_checks site) 0 ->
  Forall serial ks ->
  (exists site',
     run_checks website_id oid (user_id site) ks db !! oid = Some site'
     /\ get (total_checks site') 0 =
          get (total_checks site) 0 + Z.of_nat (length ks))
  /\ (forall w others current,
        apply_ops others db !! oid = Some current ->
        exists site',
          (Api.manual_check website_id (user_id site) w others db).1.2 !! oid
            = Some site'
          /\ total_checks site' = Some (get (total_checks site) 0 + 1)).
Proof.
  intros Hid Hsite0 Hpos0 Hser0.
  split; [| intros w others current Hcur; by eapply manual_check_overwrites].
  revert db site Hsite0 Hpos0 Hser0.
  induction ks as [| k ks IH]; intros db site Hsite Hpos Hser.
  - exists site. split; [done |]. simpl. lia.
  - apply Forall_cons in Hser as [Hk Hser].
    destruct (run_check_serial _ _ _ _ _ Hid Hsite Hpos Hk)
      as (site1 & Hsite1 & Htot & Huid).
    assert (Hget : get (total_checks site1) 0 = get (total_checks site) 0 + 1)
      by (by rewrite Htot).
    destruct (IH _ _ Hsite1 ltac:(lia) Hser) as (site' & Hsite' & Htot').
    exists site'. split.
    + rewrite Huid in Hsite'. exact Hsite'.
    + rewrite Htot', Hget. simpl length. lia.
Qed.

Lemma serial_checks_lose_nothing_witness :
  exists site',
    run_checks id_a 1%N 5
      [Manual wire_200; Periodic (quiet_cycle wire_503); Manual wire_503] db_zero
      !! 1%N = Some site'
    /\ get (total_checks site') 0 = 0 + Z.of_nat 3.
Proof.
  apply (fun a b c d => proj1 (serial_checks_lose_nothing id_a 1%N
           [Manual wire_200; Periodic (quiet_cycle wire_503); Manual wire_503]
           db_zero site_zero a b c d)).
  - reflexivity.
  - reflexivity.
  - simpl. lia.
  - repeat constructor.
Defined.

(** C6 (counterexample).  Two manual checks of a target whose counters are
    zero.  Run alone, the other check commits [commit_of_other_check].
    When that commit lands while this check awaits its probe, this check
    overwrites it from its own snapshot: two checks have completed and
    [total_checks] is 1.  A cycle of the loop loses the update the same
    way. *)
Lemma concurrent_checks_lose_an_update :
  (Api.manual_check id_a 5 wire_200 [] db_zero).1.2
    = apply_op commit_of_other_check db_zero
  /\ total_checks <$>
       ((Api.manual_check id_a 5 wire_200 [commit_of_other_check] db_zero).1.2
          !! 1%N) = Some (Some 1)
  /\ total_checks <$>
       ((Bot.cycle 1%N 5 (cycle_raced wire_200 [commit_of_other_check]) db_zero).1.2
          !! 1%N) = Some (Some 1).
Proof. by repeat split. Qed.

(** ** Deletion *)

Lemma update_one_missing oid f (db : Websites) :
  db !! oid = None ->
  update_one oid f db = db /\ matched_count oid db = false.
Proof.
  intros H. unfold update_one, matched_count. rewrite H. split; [done |].
  apply bool_decide_eq_false_2. by intros [? ?].
Qed.

Lemma update_one_other oid oid' f (db : Websites) :
  oid' <> oid -> update_one oid' f db !! oid = db !! oid.
Proof.
  intros Hne. unfold update_one.
  destruct (db !! oid'); [by rewrite lookup_insert_ne | done].
Qed.

(** No operation other than an insertion under that very id brings a
    missing record back. *)
Lemma apply_op_keeps_missing oid o (db : Websites) :
  db !! oid = None -> reinserts oid o = false -> apply_op o db !! oid = None.
Proof.
  intros Hnone Hre. destruct o as [oid' doc | oid' r q t sc | oid' u st | oid' u];
    simpl in *.
  - apply N.eqb_neq in Hre. destruct (db !! oid'); [done |].
    by rewrite lookup_insert_ne.
  - destruct (decide (oid' = oid)) as [-> | Hne].
    + by rewrite (proj1 (update_one_missing _ _ _ Hnone)).
    + by rewrite update_one_other.
  - destruct (find_owned oid' u db) eqn:E; [| done].
    destruct (decide (oid' = oid)) as [-> | Hne].
    + unfold find_owned in E. by rewrite Hnone in E.
    + by rewrite lookup_insert_ne.
  - destruct (find_owned oid' u db); [| done].
    destruct (decide (oid' = oid)) as [-> | Hne].
    + apply lookup_delete_eq.
    + by rewrite lookup_delete_ne.
Qed.

Lemma apply_ops_keep_missing oid ops (db : Websites) :
  db !! oid = None ->
  Forall (fun o => reinserts oid o = false) ops ->
  apply_ops ops db !! oid = None.
Proof.
  revert db. induction ops as [| o ops IH]; intros db Hnone Hall; [done |].
  apply Forall_cons in Hall as [Ho Hall]. simpl.
  apply IH; [by apply apply_op_keeps_missing | done].
Qed.

Lemma delete_website_Returns website_id oid uid (db db' : Websites) data evs :
  parse_ObjectId website_id = Some oid ->
  Api.delete_website website_id uid db = (Returns data, db', evs) ->
  db' = delete oid db /\ exists site, db !! oid = Some site /\ user_id site = uid.
Proof.
  intros Hid. unfold Api.delete_website. rewrite Hid.
  destruct (find_owned oid uid db) as [site |] eqn:E; [| discriminate].
  intros [= _ <- _]. simpl. rewrite E. split; [done |].
  unfold find_owned in E. destruct (db !! oid) as [site' |]; [| discriminate].
  destruct (Z.eqb_spec (user_id site') uid); [| discriminate].
  eauto.
Qed.

(** The loop, started on a collection without its record, stops at its
    first read without probing. *)
Lemma monitor_website_stops website_id uid c rest (db : Websites) :
  db !! website_id = None ->
  Bot.find_fault c = None ->
  Bot.monitor_website website_id uid (c :: rest) db =
    {| Bot.final := db; Bot.trace := []; Bot.exit := Bot.Stopped |}.
Proof. intros Hnone Hf. simpl. unfold Bot.cycle. by rewrite Hf, Hnone. Qed.

(** C7.  After [delete_website] has succeeded the record is gone and stays
    gone under every later write that is not an insertion under the same
    ObjectId: an [update_one] for that id matches nothing and changes
    nothing, and the monitoring loop stops at its next read without
    probing.  A cycle that was in flight when the deletion landed writes
    nothing, and the loop stops at the following read after that one
    probe. *)
Theorem deleted_target_stays_deleted website_id oid uid (db db' : Websites) data evs :
  parse_ObjectId website_id = Some oid ->
  Api.delete_website website_id uid db = (Returns data, db', evs) ->
  db' !! oid = None
  /\ (forall ops,
        Forall (fun o => reinserts oid o = false) ops ->
        let later := apply_ops ops db' in
        later !! oid = None
        /\ (forall f, update_one oid f later = later)
        /\ matched_count oid later = false
        /\ (forall muid c rest,
              Bot.find_fault c = None ->
              Bot.monitor_website oid muid (c :: rest) later =
                {| Bot.final := later; Bot.trace := []; Bot.exit := Bot.Stopped |}))
  /\ (forall muid c c2 rest site,
        db !! oid = Some site ->
        0 <= get (total_checks site) 0 ->
        Bot.find_fault c = None -> Bot.update_fault c = None ->
        Bot.bot_fault c = None ->
        Bot.during_probe c = [DeleteOne oid uid] -> Bot.during_sleep c = [] ->
        Bot.find_fault c2 = None ->
        let r := Bot.monitor_website oid muid (c :: c2 :: rest) db in
        Bot.exit r = Bot.Stopped
        /\ Bot.final r = db'
        /\ probes (Bot.trace r) = 1%nat
        /\ In (Updated oid false) (Bot.trace r)).
Proof.
  intros Hid Hdel.
  destruct (delete_website_Returns _ _ _ _ _ _ _ Hid Hdel)
    as (-> & owner & Howner & Huid).
  assert (Hgone : delete oid db !! oid = None) by apply lookup_delete_eq.
  split; [done |]. split.
  - intros ops Hops later.
    assert (Hlater : later !! oid = None) by by apply apply_ops_keep_missing.
    split; [done |]. split; [| split].
    + intros f. by apply update_one_missing.
    + by apply update_one_missing.
    + intros muid c rest Hf. by apply monitor_website_stops.
  - intros muid c c2 rest site Hsite Hpos Hf Hu Hb Hp Hs Hf2.
    assert (site = owner) as -> by congruence.
    assert (Hdb1 : apply_ops [DeleteOne oid uid] db = delete oid db).
    { simpl. by rewrite (find_owned_Some _ _ _ _ Howner Huid). }
    assert (Hcom : committed oid c owner db = delete oid db).
    { unfold committed.
      rewrite (aggregate_Some _ _ Hpos), Hp, Hs, Hdb1. simpl.
      by apply update_one_missing. }
    destruct (monitor_website_proceeds oid muid c (c2 :: rest) db owner
                Hf Hsite Hpos Hu Hb) as (Hfin & Hexit & evs' & Htrace & Hone & Hin).
    rewrite Hcom, (monitor_website_stops _ _ _ _ _ Hgone Hf2) in Hfin, Hexit, Htrace.
    rewrite Hp, Hdb1, (proj2 (update_one_missing oid id _ Hgone)) in Hin.
    cbn [Bot.final Bot.exit Bot.trace] in Hfin, Hexit, Htrace.
    rewrite app_nil_r in Htrace.
    cbv zeta. rewrite Hfin, Hexit, Htrace. done.
Qed.

Lemma deleted_target_stays_deleted_witness :
  (Api.delete_website id_a 5 db_a).1.2 !! 1%N = None
  /\ Bot.monitor_website 1%N 5 [quiet_cycle wire_200] (delete 1%N db_a) =
       {| Bot.final := delete 1%N db_a; Bot.trace := []; Bot.exit := Bot.Stopped |}.
Proof.
  destruct (deleted_target_stays_deleted id_a 1%N 5 db_a (delete 1%N db_a) id_a []
              eq_refl eq_refl) as (Hgone & Hlater & _).
  split; [exact Hgone |].
  apply (Hlater [] (List.Forall_nil _)). reflexivity.
Defined.

(** ** The manual check *)

Lemma find_owned_None oid uid (db : Websites) :
  find_owned oid uid db = None
  <-> forall site, db !! oid = Some site -> user_id site <> uid.
Proof.
  unfold find_owned. destruct (db !! oid) as [site |]; [| by split].
  destruct (Z.eqb_spec (user_id site) uid) as [Heq | Hne]; split; try done.
  - intros H. by destruct (H site eq_refl).
  - intros _ site' [= <-]. done.
Qed.

(** C8 (amended).  For an id of a target that belongs to the caller, a
    manual check probes once, applies the aggregator once to the snapshot
    it read, persists the result under that id and returns the fresh
    outcome; it emits a probe and an update and nothing else, so no
    transition is detected and no alert is sent.  For a well-formed id
    that is missing or belongs to another owner it raises 404 and leaves
    the [websites] collection as it was. *)
Theorem manual_check_spec website_id oid uid w (db : Websites) :
  parse_ObjectId website_id = Some oid ->
  match find_owned oid uid db with
  | Some site =>
      0 <= get (total_checks site) 0 ->
      exists k,
        aggregate site (Api.check_website w) = Some k
        /\ Api.manual_check website_id uid w [] db =
             (Returns (Api.check_website w),
              <[oid := set_check (Api.check_website w)
                         (new_uptime k) (new_total k) (new_successful k) site]> db,
              [Probed (url site); Updated oid true])
  | None =>
      Api.manual_check website_id uid w [] db =
        (Raises (HTTPException 404 "Website not found"), db, [])
  end.
Proof.
  intros Hid. destruct (find_owned oid uid db) as [site |] eqn:E.
  - intros Hpos. eexists. split; [by apply aggregate_Some |].
    unfold find_owned in E. destruct (db !! oid) as [site' |] eqn:Hsite; [| done].
    destruct (Z.eqb_spec (user_id site') uid) as [Hu |]; [| done].
    injection E as ->.
    by apply manual_check_found; [| | | apply aggregate_Some].
  - unfold Api.manual_check. by rewrite Hid, E.
Qed.

Lemma manual_check_spec_witness :
  (Api.manual_check id_a 5 wire_503 [] db_a).1.1 = Returns (Api.check_website wire_503)
  /\ Api.manual_check id_unknown 5 wire_503 [] db_a =
       (Raises (HTTPException 404 "Website not found"), db_a, []).
Proof.
  split.
  - pose proof (manual_check_spec id_a 1%N 5 wire_503 db_a eq_refl) as H.
    cbv beta iota delta [find_owned] in H.
    destruct (H ltac:(simpl; lia)) as (k & _ & ->). reflexivity.
  - exact (manual_check_spec id_unknown 2%N 5 wire_503 db_a eq_refl).
Defined.

(** C8 (counterexample).  The target is up with notifications enabled and
    the probe sees HTTP 503, so the detector would fire, and a cycle of the
    loop on this snapshot does send the alert.  The manual check on the
    same snapshot emits a probe and an update only; the status is now
    stored as down, so the next cycle of the loop sees no change and
    alerts nobody.  At the endpoint, a request for an unknown id is
    answered 404 while the caller's key document has changed. *)
Lemma manual_check_runs_no_detector :
  shouldNotify (status site_a) (res_status (Api.check_website wire_503))
    (get (notifications_enabled site_a) true) = true
  /\ existsb is_sent (Bot.cycle 1%N 5 (quiet_cycle wire_503) db_a).2 = true
  /\ (Api.manual_check id_a 5 wire_503 [] db_a).2
     = [Probed "https://a.example/"; Updated 1%N true]
  /\ existsb is_sent
       (Bot.cycle 1%N 5 (quiet_cycle wire_503)
          (Api.manual_check id_a 5 wire_503 [] db_a).1.2).2 = false
  /\ (Api.Depends (Some "Bearer first-key") 77
        (fun uid db => Api.manual_check id_unknown uid wire_200 [] db) mongo_a).1.1
     = Raises (HTTPException 404 "Website not found")
  /\ Api.api_keys
       (Api.Depends (Some "Bearer first-key") 77
          (fun uid db => Api.manual_check id_unknown uid wire_200 [] db) mongo_a).1.2
     <> Api.api_keys mongo_a.
Proof. repeat split; try reflexivity. discriminate. Qed.

(** ** Adding a website *)

Lemma has_url_true uid u (db : Websites) :
  has_url uid u db = true
  <-> exists oid site, db !! oid = Some site /\ user_id site = uid /\ url site = u.
Proof.
  unfold has_url. rewrite existsb_exists. split.
  - intros ([oid site] & Hin & Hb). simpl in Hb.
    apply andb_true_iff in Hb as [Hu Hs].
    apply Z.eqb_eq in Hu. apply String.eqb_eq in Hs.
    apply list_elem_of_In, elem_of_map_to_list in Hin. eauto.
  - intros (oid & site & Hsite & Hu & Hs). exists (oid, site). split.
    + by apply list_elem_of_In, elem_of_map_to_list.
    + simpl. apply andb_true_iff. split; [by apply Z.eqb_eq | by apply String.eqb_eq].
Qed.

(** C9 (amended).  When the user already has a target with the same URL
    string, [add_website] raises HTTP 400 without probing and without
    inserting: with the detail "Website already exists" when the requested
    interval is a supported one, and with the invalid-interval detail
    otherwise, because the interval is validated first. *)
Theorem add_website_duplicate request_url request_interval uid w now oid
    (db : Websites) existing_id existing :
  db !! existing_id = Some existing ->
  user_id existing = uid ->
  url existing = request_url ->
  exists detail,
    Api.add_website request_url request_interval uid w now oid db
      = (Raises (HTTPException 400 detail), db, [])
    /\ (Api.is_valid_interval request_interval = true ->
         detail = "Website already exists")
    /\ (Api.is_valid_interval request_interval = false ->
         detail = "Invalid interval. Must be one of: "
                  ++ String.concat ", " Api.valid_intervals).
Proof.
  intros Hsite Hu Hs. unfold Api.add_website.
  destruct (Api.is_valid_interval request_interval) eqn:Hv; simpl.
  - assert (has_url uid request_url db = true) as -> by (apply has_url_true; eauto).
    eexists. repeat split; done.
  - eexists. repeat split; done.
Qed.

Lemma add_website_duplicate_witness :
  exists detail,
    Api.add_website "https://a.example/" "1min" 5 wire_200 2000 2%N db_a
      = (Raises (HTTPException 400 detail), db_a, [])
    /\ (Api.is_valid_interval "1min" = true -> detail = "Website already exists")
    /\ (Api.is_valid_interval "1min" = false ->
         detail = "Invalid interval. Must be one of: "
                  ++ String.concat ", " Api.valid_intervals).
Proof.
  apply (add_website_duplicate "https://a.example/" "1min" 5 wire_200 2000 2%N
           db_a 1%N site_a); reflexivity.
Defined.

(** C9 (counterexample).  The user already has the URL, the request names
    the interval "7min": the answer is HTTP 400 with the invalid-interval
    detail, not "Website already exists". *)
Lemma add_website_duplicate_bad_interval :
  has_url 5 "https://a.example/" db_a = true
  /\ Api.add_website "https://a.example/" "7min" 5 wire_200 2000 2%N db_a
     = (Raises (HTTPException 400
          "Invalid interval. Must be one of: 10sec, 30sec, 1min, 2min, 3min, 5min, 10min, 15min, 30min, 1hour"),
        db_a, [])
  /\ (Api.add_website "https://a.example/" "7min" 5 wire_200 2000 2%N db_a).1.1
     <> Raises (HTTPException 400 "Website already exists").
Proof. repeat split; try reflexivity. discriminate. Qed.

(** ** API keys *)

Lemma active_of_app uid ks1 ks2 :
  active_of uid (ks1 ++ ks2)%list = (active_of uid ks1 ++ active_of uid ks2)%list.
Proof. unfold active_of. apply List.filter_app. Qed.

Lemma active_of_deactivate_same uid keys :
  active_of uid (Bot.deactivate_keys uid keys) = [].
Proof.
  induction keys as [| k keys IH]; [done |]. simpl.
  destruct (Z.eqb_spec (key_user_id k) uid) as [Heq | Hne]; simpl.
  - rewrite andb_false_r. exact IH.
  - destruct (Z.eqb_spec (key_user_id k) uid); [done |]. exact IH.
Qed.

Lemma active_of_deactivate_other uid u keys :
  u <> uid -> active_of u (Bot.deactivate_keys uid keys) = active_of u keys.
Proof.
  intros Hne. induction keys as [| k keys IH]; [done |]. simpl.
  destruct (Z.eqb_spec (key_user_id k) uid) as [Heq | Hne']; simpl.
  - destruct (Z.eqb_spec (key_user_id k) u) as [Heq' | _]; [congruence |]. exact IH.
  - by rewrite IH.
Qed.

Lemma active_of_regenerate uid token now keys u :
  active_of u (Bot.generate_new_api_key uid token now keys).2 =
    if Z.eqb uid u then [new_key uid token now] else active_of u keys.
Proof.
  unfold Bot.generate_new_api_key, Bot.generate_api_key. simpl.
  rewrite active_of_app. simpl.
  destruct (Z.eqb_spec uid u) as [-> | Hne]; simpl.
  - by rewrite active_of_deactivate_same.
  - rewrite active_of_deactivate_other by congruence. apply app_nil_r.
Qed.

Lemma active_of_touch uid now i keys :
  length (active_of uid (alter (Api.touch now) i keys)) = length (active_of uid keys).
Proof.
  revert i. induction keys as [| k keys IH]; intros [| i]; simpl; try done.
  - by destruct (Z.eqb (key_user_id k) uid && active k).
  - specialize (IH i). unfold alter in IH.
    destruct (Z.eqb (key_user_id k) uid && active k); simpl; by rewrite IH.
Qed.

Lemma verify_api_key_keys authorization now keys :
  (Api.verify_api_key authorization now keys).2 = keys
  \/ exists i, (Api.verify_api_key authorization now keys).2
               = alter (Api.touch now) i keys.
Proof.
  unfold Api.verify_api_key. destruct authorization as [header |]; [| by left].
  destruct (negb _); [by left |].
  destruct (list_find _ keys) as [[i k] |]; [right; by exists i | by left].
Qed.

Lemma key_step_one_active e keys :
  (forall u, (length (active_of u keys) <= 1)%nat) ->
  forall u, (length (active_of u (key_step e keys)) <= 1)%nat.
Proof.
  intros Hinv u. destruct e as [uid token now | authorization now]; cbn [key_step].
  - rewrite active_of_regenerate. destruct (Z.eqb uid u); [simpl; lia | apply Hinv].
  - destruct (verify_api_key_keys authorization now keys) as [-> | [i ->]];
      [apply Hinv |]. rewrite active_of_touch. apply Hinv.
Qed.

Lemma run_keys_one_active evs keys :
  (forall u, (length (active_of u keys) <= 1)%nat) ->
  forall u, (length (active_of u (run_keys evs keys)) <= 1)%nat.
Proof.
  revert keys. induction evs as [| e evs IH]; intros keys Hinv; [done |].
  simpl. apply IH. by apply key_step_one_active.
Qed.

(** Authentication returns a user only for a document that is active and
    carries the presented key. *)
Lemma verify_api_key_accepts authorization now keys uid keys' :
  Api.verify_api_key authorization now keys = (Returns uid, keys') ->
  exists header k,
    authorization = Some header
    /\ In k keys /\ active k = true /\ key_user_id k = uid
    /\ api_key k = Py.remove_all "Bearer " header.
Proof.
  unfold Api.verify_api_key. destruct authorization as [header |]; [| discriminate].
  destruct (negb _); [discriminate |].
  destruct (list_find _ keys) as [[i k] |] eqn:E; [| discriminate].
  intros [= <- _]. apply list_find_Some in E as (Hk & Hm & _).
  unfold Api.key_matches in Hm. apply andb_true_iff in Hm as [Hs Ha].
  apply String.eqb_eq in Hs.
  exists header, k. repeat split; try done.
  apply list_elem_of_In. by eapply list_elem_of_lookup_2.
Qed.

Lemma retired_rejects old header now keys :
  retired old keys ->
  Py.remove_all "Bearer " header = old ->
  exists detail,
    (Api.verify_api_key (Some header) now keys).1 = Raises (HTTPException 401 detail).
Proof.
  intros Hret Hkey. unfold Api.verify_api_key.
  destruct (negb _); [by eexists |]. rewrite Hkey.
  destruct (list_find _ keys) as [[i k] |] eqn:E; [| by eexists].
  apply list_find_Some in E as (Hk & Hm & _).
  unfold Api.key_matches in Hm. apply andb_true_iff in Hm as [Hs Ha].
  apply String.eqb_eq in Hs.
  assert (In k keys) by (apply list_elem_of_In; by eapply list_elem_of_lookup_2).
  rewrite (Hret k) in Ha; done.
Qed.

Lemma retired_deactivate old uid keys :
  retired old keys -> retired old (Bot.deactivate_keys uid keys).
Proof.
  intros Hret k Hin Hk. unfold Bot.deactivate_keys in Hin.
  apply in_map_iff in Hin as (k0 & <- & Hin0).
  destruct (Z.eqb (key_user_id k0) uid); [done | by apply Hret].
Qed.

Lemma retired_touch old now i keys :
  retired old keys -> retired old (alter (Api.touch now) i keys).
Proof.
  intros Hret k Hin Hk. apply list_elem_of_In in Hin.
  apply list_elem_of_lookup in Hin as [j Hj].
  destruct (decide (i = j)) as [-> | Hne].
  - rewrite list_lookup_alter_eq in Hj.
    destruct (keys !! j) as [k0 |] eqn:E; [| done]. injection Hj as <-.
    simpl in *. apply Hret; [| done].
    apply list_elem_of_In. by eapply list_elem_of_lookup_2.
  - rewrite list_lookup_alter_ne in Hj by done.
    apply Hret; [| done]. apply list_elem_of_In. by eapply list_elem_of_lookup_2.
Qed.

Lemma retired_step old e keys :
  retired old keys -> issues old e = false -> retired old (key_step e keys).
Proof.
  intros Hret He. destruct e as [uid token now | authorization now]; simpl in *.
  - intros k Hin Hk. apply in_app_iff in Hin as [Hin | [<- | []]].
    + by apply (retired_deactivate old uid keys Hret).
    + simpl in Hk. apply String.eqb_neq in He. done.
  - destruct (verify_api_key_keys authorization now keys) as [-> | [i ->]];
      [done | by apply retired_touch].
Qed.

Lemma retired_run old evs keys :
  retired old keys ->
  Forall (fun e => issues old e = false) evs ->
  retired old (run_keys evs keys).
Proof.
  revert keys. induction evs as [| e evs IH]; intros keys Hret Hall; [done |].
  apply Forall_cons in Hall as [He Hall]. simpl.
  apply IH; [by apply retired_step | done].
Qed.

Lemma retired_after_regenerate old uid token now keys :
  (forall k, In k keys -> api_key k = old -> key_user_id k = uid) ->
  token <> old ->
  retired old (Bot.generate_new_api_key uid token now keys).2.
Proof.
  intros Hmine Hne k Hin Hk. simpl in Hin.
  apply in_app_iff in Hin as [Hin | [<- | []]]; [| done].
  unfold Bot.deactivate_keys in Hin. apply in_map_iff in Hin as (k0 & <- & Hin0).
  destruct (Z.eqb_spec (key_user_id k0) uid) as [_ | Hother]; [done |].
  by destruct Hother; apply Hmine.
Qed.

(** What [update_many] leaves of each document: the same document, with
    [active] false when it belongs to [uid]. *)
Lemma deactivate_keys_lookup uid keys i k :
  keys !! i = Some k ->
  Bot.deactivate_keys uid keys !! i
  = Some (if Z.eqb (key_user_id k) uid then Bot.deactivate k else k).
Proof.
  intros Hk. unfold Bot.deactivate_keys.
  change (map ?f keys) with (f <$> keys). by rewrite list_lookup_fmap, Hk.
Qed.

Lemma deactivate_keys_length uid keys :
  length (Bot.deactivate_keys uid keys) = length keys.
Proof. unfold Bot.deactivate_keys. apply length_map. Qed.

(** Deactivating the keys of [uid] does not change which document a key
    of somebody else is matched with. *)
Lemma find_after_deactivate key uid keys :
  (forall k, In k keys -> api_key k = key -> active k = true ->
     key_user_id k <> uid) ->
  list_find (fun k => Api.key_matches key k = true) (Bot.deactivate_keys uid keys)
  = list_find (fun k => Api.key_matches key k = true) keys.
Proof.
  induction keys as [| k keys IH]; intros Hother; [done |].
  assert (IH' := IH (fun k' Hin => Hother k' (or_intror Hin))). clear IH.
  cbn [Bot.deactivate_keys map list_find].
  fold (Bot.deactivate_keys uid keys). rewrite IH'.
  destruct (Z.eqb_spec (key_user_id k) uid) as [Hmine | Hnot]; [| done].
  assert (Hk : Api.key_matches key k = false).
  { destruct (Api.key_matches key k) eqn:E; [| done].
    unfold Api.key_matches in E. apply andb_true_iff in E as [Hs Ha].
    apply String.eqb_eq in Hs. by destruct (Hother k (or_introl eq_refl) Hs Ha). }
  assert (Hd : Api.key_matches key (Bot.deactivate k) = false).
  { unfold Api.key_matches. cbn. apply andb_false_r. }
  rewrite !decide_False by congruence. done.
Qed.

Lemma verify_after_regenerate uid token now keys header n :
  Py.remove_all "Bearer " header <> token ->
  (forall k, In k keys -> api_key k = Py.remove_all "Bearer " header ->
     active k = true -> key_user_id k <> uid) ->
  (Api.verify_api_key (Some header) n
     (Bot.generate_new_api_key uid token now keys).2).1
  = (Api.verify_api_key (Some header) n keys).1.
Proof.
  intros Hne Hother. unfold Api.verify_api_key.
  destruct (negb _); [done |].
  unfold Bot.generate_new_api_key, Bot.generate_api_key. cbn [snd].
  pose proof (find_after_deactivate _ uid keys Hother) as Hfind.
  destruct (list_find _ keys) as [[i k] |] eqn:E.
  - erewrite list_find_app_l by exact Hfind. done.
  - rewrite list_find_app_r by exact Hfind. cbn.
    rewrite decide_False; [done |].
    unfold Api.key_matches. cbn. rewrite andb_true_r.
    intros Hs. apply String.eqb_eq in Hs. congruence.
Qed.

(** C10.  After a regeneration the user's only active key is the new one;
    no sequence of regenerations and requests gives any user a second
    active key; authentication returns a user only for an active document
    carrying the presented key; and a key that was regenerated away is
    answered 401 by every later request, provided the token generator
    never hands out that string again.  Regeneration removes nothing: the
    collection is the old one, document for document, with [active] set
    to false on the documents of that user and on no other, followed by
    the one new document; the active keys of every other user are the
    same as before and keep authenticating. *)
Theorem one_active_key_per_user keys uid token now :
  (forall u, (length (active_of u keys) <= 1)%nat) ->
  let keys' := (Bot.generate_new_api_key uid token now keys).2 in
  active_of uid keys' = [new_key uid token now]
  /\ (forall evs u, (length (active_of u (run_keys evs keys')) <= 1)%nat)
  /\ (forall authorization n ks u ks',
        Api.verify_api_key authorization n ks = (Returns u, ks') ->
        exists header k,
          authorization = Some header
          /\ In k ks /\ active k = true /\ key_user_id k = u
          /\ api_key k = Py.remove_all "Bearer " header)
  /\ (forall old evs header n,
        (forall k, In k keys -> api_key k = old -> key_user_id k = uid) ->
        token <> old ->
        Forall (fun e => issues old e = false) evs ->
        Py.remove_all "Bearer " header = old ->
        exists detail,
          (Api.verify_api_key (Some header) n (run_keys evs keys')).1
            = Raises (HTTPException 401 detail))
  /\ length keys' = S (length keys)
  /\ keys' !! length keys = Some (new_key uid token now)
  /\ (forall i k,
        keys !! i = Some k ->
        exists k',
          keys' !! i = Some k'
          /\ key_user_id k' = key_user_id k
          /\ api_key k' = api_key k
          /\ created_at k' = created_at k
          /\ last_used k' = last_used k
          /\ requests_count k' = requests_count k
          /\ active k' = (if Z.eqb (key_user_id k) uid then false else active k))
  /\ (forall u, u <> uid -> active_of u keys' = active_of u keys)
  /\ (forall header n,
        Py.remove_all "Bearer " header <> token ->
        (forall k, In k keys -> api_key k = Py.remove_all "Bearer " header ->
           active k = true -> key_user_id k <> uid) ->
        (Api.verify_api_key (Some header) n keys').1
        = (Api.verify_api_key (Some header) n keys).1).
Proof.
  intros Hinv keys'. split; [| split; [| split; [| split; [| split; [| split;
    [| split; [| split]]]]]]].
  - unfold keys'. rewrite active_of_regenerate. by rewrite Z.eqb_refl.
  - intros evs u. apply run_keys_one_active.
    apply (key_step_one_active (Regenerate uid token now) keys Hinv).
  - intros authorization n ks u ks'. apply verify_api_key_accepts.
  - intros old evs header n Hmine Hne Hall Hkey.
    apply (retired_rejects old); [| done].
    apply retired_run; [| done]. by apply retired_after_regenerate.
  - unfold keys', Bot.generate_new_api_key, Bot.generate_api_key. cbn [snd].
    rewrite length_app, deactivate_keys_length. cbn. lia.
  - unfold keys', Bot.generate_new_api_key, Bot.generate_api_key. cbn [snd].
    rewrite lookup_app_r by (rewrite deactivate_keys_length; lia).
    by rewrite deactivate_keys_length, Nat.sub_diag.
  - intros i k Hk.
    unfold keys', Bot.generate_new_api_key, Bot.generate_api_key. cbn [snd].
    eexists. split.
    + apply lookup_app_l_Some. by apply deactivate_keys_lookup.
    + by destruct (Z.eqb (key_user_id k) uid).
  - intros u Hne. unfold keys'. rewrite active_of_regenerate.
    destruct (Z.eqb_spec uid u); [congruence | done].
  - intros header n Hne Hother. by apply verify_after_regenerate.
Qed.

Lemma one_active_key_per_user_witness :
  active_of 5 (Bot.generate_new_api_key 5 "second-key" 20 keys_a).2
    = [new_key 5 "second-key" 20]
  /\ exists detail,
       (Api.verify_api_key (Some "Bearer first-key") 30
          (run_keys [Request (Some "Bearer second-key") 25;
                     Regenerate 6 "third-key" 26]
             (Bot.generate_new_api_key 5 "second-key" 20 keys_a).2)).1
       = Raises (HTTPException 401 detail).
Proof.
  assert (Hinv : forall u, (length (active_of u keys_a) <= 1)%nat).
  { intros u. unfold keys_a. rewrite active_of_regenerate.
    destruct (Z.eqb 5 u); simpl; lia. }
  destruct (one_active_key_per_user keys_a 5 "second-key" 20 Hinv)
    as (Hone & _ & _ & Hold & _).
  split; [exact Hone |].
  apply (Hold "first-key"
           [Request (Some "Bearer second-key") 25; Regenerate 6 "third-key" 26]
           "Bearer first-key" 30).
  - intros k [<- | []] _. reflexivity.
  - discriminate.
  - repeat constructor.
  - reflexivity.
Defined.

(** * Further properties of the two programs *)

(** ** The interval tables *)

Lemma lookup_interval_valid key :
  Api.is_valid_interval key = true
  <-> exists seconds, lookup_interval key INTERVALS = Some seconds.
Proof.
  unfold Api.is_valid_interval, Api.valid_intervals, INTERVALS.
  cbn [existsb lookup_interval].
  repeat match goal with
  | |- context [String.eqb key ?k] =>
      rewrite (String.eqb_sym key k);
      destruct (String.eqb k key);
      [split; [intros _; eexists; reflexivity | reflexivity] |]
  end.
  cbn. split; [discriminate | intros [? [=]]].
Qed.

Lemma lookup_interval_range key seconds :
  lookup_interval key INTERVALS = Some seconds -> 10 <= seconds <= 3600.
Proof.
  unfold INTERVALS. cbn [lookup_interval].
  repeat match goal with
  | |- context [String.eqb ?k key] =>
      destruct (String.eqb k key); [intros [= <-]; lia |]
  end.
  discriminate.
Qed.

(** X1.  The list [valid_intervals] and the table [interval_map] name the
    same intervals, each between 10 seconds and one hour, so the API never
    fails with [KeyError]: [add_website] and [update_website] either raise
    an [HTTPException] or a duplicate-key error, or succeed. *)
Theorem validated_interval_is_mapped :
  (forall key,
      Api.is_valid_interval key = true
      <-> exists seconds,
            lookup_interval key INTERVALS = Some seconds /\ 10 <= seconds <= 3600)
  /\ (forall request_url request_interval uid w now oid (db : Websites),
        (Api.add_website request_url request_interval uid w now oid db).1.1
        <> Raises (Error "KeyError"))
  /\ (forall website_id request_interval request_notifications uid (db : Websites),
        (Api.update_website website_id request_interval request_notifications
           uid db).1.1
        <> Raises (Error "KeyError")).
Proof.
  split; [| split].
  - intros key. rewrite lookup_interval_valid. split.
    + intros [seconds H]. exists seconds. split; [done |].
      by apply (lookup_interval_range key).
    + intros (seconds & H & _). eauto.
  - intros request_url request_interval uid w now oid db. unfold Api.add_website.
    destruct (Api.is_valid_interval request_interval) eqn:Hv; cbn [negb]; [| done].
    apply lookup_interval_valid in Hv as [seconds Hs].
    destruct (has_url _ _ _); [done |]. rewrite Hs. by destruct (db !! oid).
  - intros website_id request_interval request_notifications uid db.
    unfold Api.update_website, Api.commit_settings.
    destruct (if Py.truthy_str request_interval then request_interval else None)
      as [key |]; cbn [negb].
    + destruct (Api.is_valid_interval key) eqn:Hv; cbn [negb]; [| done].
      apply lookup_interval_valid in Hv as [seconds Hs]. rewrite Hs.
      cbn [set_interval set_notifications].
      destruct (parse_ObjectId website_id); [| done].
      by destruct (find_owned _ _ _).
    + cbn [set_interval set_notifications].
      destruct request_notifications; [| done].
      destruct (parse_ObjectId website_id); [| done].
      by destruct (find_owned _ _ _).
Qed.

(** ** The percentage stays between 0 and 100 *)

Lemma spec_uptime_range successful total :
  0 <= successful <= total -> 0 < total ->
  Qle 0 (spec_uptime successful total)
  /\ Qle (spec_uptime successful total) (inject_Z 100).
Proof.
  intros [Hs Hst] Ht. unfold spec_uptime.
  assert (Htq : Qlt 0 (inject_Z total)).
  { change (Qlt (inject_Z 0) (inject_Z total)). rewrite <- Zlt_Qlt. lia. }
  assert (H0 : Qle 0 (inject_Z successful / inject_Z total)).
  { apply Qle_shift_div_l; [done |]. rewrite Qmult_0_l.
    change (Qle (inject_Z 0) (inject_Z successful)). by rewrite <- Zle_Qle. }
  assert (H1 : Qle (inject_Z successful / inject_Z total) 1).
  { apply Qle_shift_div_r; [done |]. rewrite Qmult_1_l.
    by rewrite <- Zle_Qle. }
  split.
  - apply Qmult_le_0_compat; [done | discriminate].
  - apply Qle_trans with (1 * inject_Z 100)%Q.
    + apply Qmult_le_compat_r; [done | discriminate].
    + rewrite Qmult_1_l. apply Qle_refl.
Qed.

(** X2.  Starting from counters with [0 <= successful <= total], every
    application of the aggregator succeeds, keeps that invariant, and
    yields a percentage between 0 and 100. *)
Theorem aggregate_keeps_range site result :
  counters_ok site ->
  exists k,
    aggregate site result = Some k
    /\ 0 <= new_successful k <= new_total k
    /\ Qle 0 (new_uptime k) /\ Qle (new_uptime k) (inject_Z 100).
Proof.
  intros Hok. unfold counters_ok in Hok.
  rewrite aggregate_Some by lia. eexists. split; [done |]. cbn.
  destruct (Status_eqb (res_status result) up);
    (split; [lia | apply spec_uptime_range; lia]).
Qed.

Lemma aggregate_keeps_range_witness :
  exists k,
    aggregate site_a (Bot.check_website wire_503) = Some k
    /\ 0 <= new_successful k <= new_total k
    /\ Qle 0 (new_uptime k) /\ Qle (new_uptime k) (inject_Z 100).
Proof.
  apply (aggregate_keeps_range site_a (Bot.check_website wire_503)).
  unfold counters_ok. simpl. lia.
Defined.

(** ** Runs of the loop without faults *)

Lemma alerts_app t1 t2 : alerts (t1 ++ t2)%list = (alerts t1 + alerts t2)%nat.
Proof.
  induction t1 as [| e t1 IH]; simpl; [done |].
  destruct (is_sent e); simpl; by rewrite IH.
Qed.

Lemma last_cons_default {A} (x : A) l d d' d'' :
  List.last (x :: l) d = List.last (d' :: x :: l) d''.
Proof.
  change (List.last (x :: l) d = List.last (x :: l) d'').
  revert x. induction l as [| y l IH]; intros x; [done |].
  change (List.last (y :: l) d = List.last (y :: l) d''). apply IH.
Qed.

(** What one smooth cycle returns. *)
Lemma smooth_cycle website_id uid c (db : Websites) site :
  smooth c ->
  db !! website_id = Some site ->
  0 <= get (total_checks site) 0 ->
  exists k,
    aggregate site (Bot.check_website (Bot.wire c)) = Some k
    /\ Bot.cycle website_id uid c db =
        (Bot.Continue,
         <[website_id := set_check (Bot.check_website (Bot.wire c))
                           (new_uptime k) (new_total k) (new_successful k) site]> db,
         Probed (url site) :: Updated website_id true ::
           (if shouldNotify (status site)
                 (res_status (Bot.check_website (Bot.wire c)))
                 (get (notifications_enabled site) true)
            then [Sent uid
                    (Bot.alert site (Bot.check_website (Bot.wire c))
                       (new_uptime k) (Bot.clock c))
                    (negb (Bot.send_fault c));
                  Slept (interval_seconds site)]
            else [Slept (interval_seconds site)])).
Proof.
  intros [(Hf & Hu & Hp & Hs) Hb] Hsite Hpos.
  eexists. split; [by apply aggregate_Some |].
  unfold Bot.cycle. rewrite Hf, Hsite, (aggregate_Some _ _ Hpos), Hu, Hb, Hp, Hs.
  cbn [apply_ops fold_left]. unfold update_one, matched_count. rewrite Hsite.
  rewrite bool_decide_eq_true_2 by eauto.
  by destruct (shouldNotify _ _ _).
Qed.

Lemma smooth_run website_id uid script :
  forall (db : Websites) site,
  db !! website_id = Some site ->
  counters_ok site ->
  Forall smooth script ->
  let r := Bot.monitor_website website_id uid script db in
  Bot.exit r = Bot.Running
  /\ probes (Bot.trace r) = length script
  /\ alerts (Bot.trace r) =
       (if get (notifications_enabled site) true
        then transitions (status site) (probed script) else O)
  /\ (forall other, other <> website_id -> Bot.final r !! other = db !! other)
  /\ exists site',
       Bot.final r !! website_id = Some site'
       /\ get (total_checks site') 0 =
            get (total_checks site) 0 + Z.of_nat (length script)
       /\ get (successful_checks site') 0 =
            get (successful_checks site) 0 + ups (probed script)
       /\ counters_ok site'
       /\ status site' = List.last (probed script) (status site)
       /\ notifications_enabled site' = notifications_enabled site
       /\ url site' = url site
       /\ user_id site' = user_id site.
Proof.
  induction script as [| c rest IH]; intros db site Hsite Hok Hall.
  - cbn. repeat split; try done.
    + by destruct (get (notifications_enabled site) true).
    + exists site. unfold counters_ok in *. cbn. repeat split; try done; lia.
  - apply Forall_cons in Hall as [Hc Hall].
    assert (Hpos : 0 <= get (total_checks site) 0) by (unfold counters_ok in Hok; lia).
    destruct (smooth_cycle website_id uid c db site Hc Hsite Hpos) as (k & Hagg & Hcyc).
    rewrite (aggregate_Some _ _ Hpos) in Hagg. injection Hagg as <-.
    set (result := Bot.check_website (Bot.wire c)) in *.
    set (site1 := set_check result _ _ _ site) in *.
    assert (Hsite1 : <[website_id := site1]> db !! website_id = Some site1)
      by apply lookup_insert_eq.
    assert (Hok1 : counters_ok site1).
    { unfold counters_ok in *. subst site1. cbn.
      destruct (Status_eqb (res_status result) up); lia. }
    specialize (IH _ _ Hsite1 Hok1 Hall).
    cbv zeta in IH. destruct IH as (Hexit & Hprobes & Halerts & Hothers & site' & Hfin
                                   & Htot & Hsuc & Hok' & Hst & Hn & Hurl & Huid).
    cbn [Bot.monitor_website]. rewrite Hcyc.
    cbn [Bot.final Bot.exit Bot.trace].
    split; [done |]. split; [| split; [| split]].
    + rewrite probes_app, Hprobes. cbn [length].
      by destruct (shouldNotify _ _ _).
    + rewrite alerts_app, Halerts. subst site1. cbn [probed map transitions
        notifications_enabled status set_check].
      unfold shouldNotify. fold result.
      destruct (get (notifications_enabled site) true);
        destruct (Status_eqb (status site) (res_status result)); reflexivity.
    + intros other Hne. rewrite Hothers by done. by rewrite lookup_insert_ne.
    + exists site'. split; [done |].
      subst site1. cbn in Htot, Hsuc, Hst, Hn, Hurl, Huid.
      cbn [probed map ups length]. fold result. fold (probed rest).
      split; [| split; [| split; [done | split; [| done]]]].
      * rewrite Htot. lia.
      * rewrite Hsuc. destruct (Status_eqb (res_status result) up); lia.
      * rewrite Hst. destruct (probed rest) as [| s0 ss]; [done |].
        apply last_cons_default.
Qed.

(** X3.  A loop that runs [n] cycles without faults and without other
    writers keeps running, probes [n] times, adds [n] to [total_checks]
    and the number of up probes to [successful_checks], keeps
    [0 <= successful <= total], stores the status of its last probe, and
    changes neither the URL, the owner, the notifications flag nor any
    other record. *)
Theorem monitor_website_counts website_id uid script (db : Websites) site :
  db !! website_id = Some site ->
  counters_ok site ->
  Forall smooth script ->
  let r := Bot.monitor_website website_id uid script db in
  Bot.exit r = Bot.Running
  /\ probes (Bot.trace r) = length script
  /\ (forall other, other <> website_id -> Bot.final r !! other = db !! other)
  /\ exists site',
       Bot.final r !! website_id = Some site'
       /\ get (total_checks site') 0 =
            get (total_checks site) 0 + Z.of_nat (length script)
       /\ get (successful_checks site') 0 =
            get (successful_checks site) 0 + ups (probed script)
       /\ counters_ok site'
       /\ status site' = List.last (probed script) (status site)
       /\ notifications_enabled site' = notifications_enabled site
       /\ url site' = url site
       /\ user_id site' = user_id site.
Proof.
  intros Hsite Hok Hall.
  destruct (smooth_run website_id uid script db site Hsite Hok Hall)
    as (H1 & H2 & _ & H4 & H5).
  cbv zeta. auto.
Qed.

Lemma monitor_website_counts_witness :
  let r := Bot.monitor_website 1%N 5
             [quiet_cycle wire_503; quiet_cycle wire_200; quiet_cycle wire_200] db_a in
  Bot.exit r = Bot.Running /\ probes (Bot.trace r) = 3%nat.
Proof.
  destruct (monitor_website_counts 1%N 5
              [quiet_cycle wire_503; quiet_cycle wire_200; quiet_cycle wire_200]
              db_a site_a eq_refl) as (H1 & H2 & _).
  - unfold counters_ok. simpl. lia.
  - repeat constructor.
  - split; [exact H1 | exact H2].
Defined.

(** X4.  In such a run the number of alerts sent equals the number of
    changes of status along the stored status followed by the probed
    ones when notifications are enabled (a missing flag counts as
    enabled), and is zero when they are disabled: a status that flaps
    down and up again gives two alerts, a stable one none. *)
Theorem alerts_count_transitions website_id uid script (db : Websites) site :
  db !! website_id = Some site ->
  counters_ok site ->
  Forall smooth script ->
  alerts (Bot.trace (Bot.monitor_website website_id uid script db)) =
    if get (notifications_enabled site) true
    then transitions (status site) (probed script)
    else O.
Proof.
  intros Hsite Hok Hall.
  by destruct (smooth_run website_id uid script db site Hsite Hok Hall)
    as (_ & _ & H3 & _).
Qed.

Lemma alerts_count_transitions_witness :
  alerts (Bot.trace (Bot.monitor_website 1%N 5
            [quiet_cycle wire_503; quiet_cycle wire_200; quiet_cycle wire_200] db_a))
  = 2%nat.
Proof.
  rewrite (alerts_count_transitions 1%N 5
             [quiet_cycle wire_503; quiet_cycle wire_200; quiet_cycle wire_200]
             db_a site_a eq_refl).
  - reflexivity.
  - unfold counters_ok. simpl. lia.
  - repeat constructor.
Defined.

(** X5.  A settings update of the owner that lands while a cycle awaits
    its probe is not lost: the cycle's write sets the check fields only,
    so the record afterwards carries the new settings together with the
    new counters.  The cycle itself still sleeps the interval it read at
    its start. *)
Theorem settings_update_survives_cycle website_id uid c (db : Websites) site st :
  db !! website_id = Some site ->
  0 <= get (total_checks site) 0 ->
  Bot.find_fault c = None -> Bot.update_fault c = None -> Bot.bot_fault c = None ->
  Bot.during_probe c = [SetSettings website_id (user_id site) st] ->
  Bot.during_sleep c = [] ->
  exists k evs,
    aggregate site (Bot.check_website (Bot.wire c)) = Some k
    /\ Bot.cycle website_id uid c db =
         (Bot.Continue,
          <[website_id :=
              set_check (Bot.check_website (Bot.wire c))
                (new_uptime k) (new_total k) (new_successful k)
                (set_settings st site)]> db,
          evs)
    /\ In (Slept (interval_seconds site)) evs.
Proof.
  intros Hsite Hpos Hf Hu Hb Hp Hs.
  eexists. unfold Bot.cycle.
  rewrite Hf, Hsite, (aggregate_Some _ _ Hpos), Hu, Hb, Hp, Hs.
  cbn [apply_ops fold_left apply_op].
  rewrite (find_owned_Some _ _ _ _ Hsite eq_refl).
  unfold update_one. rewrite lookup_insert_eq, insert_insert_eq.
  destruct (shouldNotify _ _ _); eexists; (split; [reflexivity |]);
    (split; [reflexivity | simpl; tauto]).
Qed.

Lemma settings_update_survives_cycle_witness :
  exists site',
    (Bot.cycle 1%N 5
       (cycle_raced wire_200
          [SetSettings 1%N 5 {| set_interval := Some ("1min", 60);
                                set_notifications := Some false |}])
       db_a).1.2 !! 1%N = Some site'
    /\ interval_seconds site' = 60
    /\ notifications_enabled site' = Some false
    /\ total_checks site' = Some 11.
Proof.
  destruct (settings_update_survives_cycle 1%N 5
              (cycle_raced wire_200
                 [SetSettings 1%N 5 {| set_interval := Some ("1min", 60);
                                       set_notifications := Some false |}])
              db_a site_a
              {| set_interval := Some ("1min", 60); set_notifications := Some false |}
              eq_refl ltac:(simpl; lia) eq_refl eq_refl eq_refl eq_refl eq_refl)
    as (k & evs & Hk & -> & _).
  injection Hk as <-. eexists. split; [apply lookup_insert_eq |]. by repeat split.
Defined.

(** ** The endpoints on [websites] *)

Lemma has_url_false uid u (db : Websites) oid site :
  has_url uid u db = false -> db !! oid = Some site -> user_id site = uid ->
  url site <> u.
Proof.
  intros Hno Hsite Hu Hs.
  assert (has_url uid u db = true) by (apply has_url_true; eauto). congruence.
Qed.

(** X6.  A request with a supported interval for a URL the user does not
    have yet, under a fresh ObjectId, probes once and inserts one record
    owned by the caller, with the probed status, one recorded check,
    notifications enabled and the interval's seconds; every later request
    of that user for the same URL is refused with "Website already
    exists" and changes nothing. *)
Theorem add_website_then_duplicate request_url request_interval uid w now oid
    (db : Websites) :
  Api.is_valid_interval request_interval = true ->
  has_url uid request_url db = false ->
  db !! oid = None ->
  exists doc,
    Api.add_website request_url request_interval uid w now oid db
      = (Returns (oid, doc), <[oid := doc]> db, [Probed request_url])
    /\ user_id doc = uid /\ url doc = request_url
    /\ status doc = res_status (Api.check_website w)
    /\ total_checks doc = Some 1
    /\ notifications_enabled doc = Some true
    /\ lookup_interval request_interval INTERVALS = Some (interval_seconds doc)
    /\ (forall interval2 w2 now2 oid2,
          Api.is_valid_interval interval2 = true ->
          Api.add_website request_url interval2 uid w2 now2 oid2 (<[oid := doc]> db)
            = (Raises (HTTPException 400 "Website already exists"),
               <[oid := doc]> db, [])).
Proof.
  intros Hv Hno Hfresh.
  destruct (proj1 (lookup_interval_valid request_interval) Hv) as [seconds Hs].
  eexists. split.
  - unfold Api.add_website. rewrite Hv, Hno, Hs, Hfresh. reflexivity.
  - do 5 (split; [reflexivity |]). split; [exact Hs |].
    intros interval2 w2 now2 oid2 Hv2. unfold Api.add_website. rewrite Hv2. cbn [negb].
    match goal with |- context [has_url uid request_url ?m] =>
      assert (has_url uid request_url m = true) as ->
    end; [| done].
    apply has_url_true. eexists oid, _. split; [apply lookup_insert_eq | done].
Qed.

Lemma add_website_then_duplicate_witness :
  exists doc,
    Api.add_website "https://b.example/" "5min" 5 wire_200 2000 2%N db_a
      = (Returns (2%N, doc), <[2%N := doc]> db_a, [Probed "https://b.example/"])
    /\ interval_seconds doc = 300.
Proof.
  destruct (add_website_then_duplicate "https://b.example/" "5min" 5 wire_200 2000
              2%N db_a eq_refl eq_refl eq_refl)
    as (doc & Hrun & _ & _ & _ & _ & _ & Hsec & _).
  exists doc. split; [exact Hrun |]. by injection Hsec.
Defined.

(** X7.  A request on [websites] that ends in an exception has changed
    nothing: whenever [add_website], [update_website], [delete_website]
    or a manual check that nobody interleaves raises, the collection is
    the one the request found. *)
Theorem failed_request_changes_nothing :
  (forall request_url request_interval uid w now oid (db db' : Websites) e evs,
      Api.add_website request_url request_interval uid w now oid db
        = (Raises e, db', evs) -> db' = db)
  /\ (forall website_id ri rn uid (db db' : Websites) e evs,
        Api.update_website website_id ri rn uid db = (Raises e, db', evs) ->
        db' = db)
  /\ (forall website_id uid (db db' : Websites) e evs,
        Api.delete_website website_id uid db = (Raises e, db', evs) -> db' = db)
  /\ (forall website_id uid w (db db' : Websites) e evs,
        Api.manual_check website_id uid w [] db = (Raises e, db', evs) -> db' = db).
Proof.
  repeat split.
  - intros *. unfold Api.add_website.
    repeat case_match; by intros [= _ <- _].
  - intros *. unfold Api.update_website, Api.commit_settings.
    repeat case_match; by intros [= _ <- _].
  - intros *. unfold Api.delete_website.
    repeat case_match; by intros [= _ <- _].
  - intros *. unfold Api.manual_check.
    repeat case_match; by intros [= _ <- _].
Qed.

(** X8.  A target of another owner is invisible: for its id the caller
    gets 404 from [get_website], [delete_website] and the manual check,
    which does not even probe, [update_website] raises too, and none of
    them changes the collection. *)
Theorem other_owner_is_not_found website_id oid uid (db : Websites) site :
  parse_ObjectId website_id = Some oid ->
  db !! oid = Some site ->
  user_id site <> uid ->
  ApiRead.get_website website_id uid db
    = Raises (HTTPException 404 "Website not found")
  /\ Api.delete_website website_id uid db
     = (Raises (HTTPException 404 "Website not found"), db, [])
  /\ (forall w others,
        Api.manual_check website_id uid w others db
        = (Raises (HTTPException 404 "Website not found"), db, []))
  /\ (forall ri rn,
        exists e, Api.update_website website_id ri rn uid db = (Raises e, db, [])).
Proof.
  intros Hid Hsite Hne.
  assert (Hnone : find_owned oid uid db = None).
  { apply find_owned_None. intros site' Hs'. congruence. }
  repeat split.
  - unfold ApiRead.get_website. by rewrite Hid, Hnone.
  - unfold Api.delete_website. by rewrite Hid, Hnone.
  - intros w others. unfold Api.manual_check. by rewrite Hid, Hnone.
  - intros ri rn. unfold Api.update_website, Api.commit_settings.
    rewrite Hid, Hnone.
    repeat case_match; by eexists.
Qed.

Lemma other_owner_is_not_found_witness :
  Api.delete_website id_a 6 db_a
  = (Raises (HTTPException 404 "Website not found"), db_a, []).
Proof.
  apply (other_owner_is_not_found id_a 1%N 6 db_a site_a eq_refl eq_refl).
  discriminate.
Defined.

(** X9.  [delete_website] by the owner removes that record and no other;
    afterwards the same id is not found by [get_website] nor by a second
    [delete_website]. *)
Theorem delete_website_removes_one website_id oid (db : Websites) site :
  parse_ObjectId website_id = Some oid ->
  db !! oid = Some site ->
  let uid := user_id site in
  let db' := delete oid db in
  Api.delete_website website_id uid db = (Returns website_id, db', [])
  /\ db' !! oid = None
  /\ (forall other, other <> oid -> db' !! other = db !! other)
  /\ ApiRead.get_website website_id uid db'
     = Raises (HTTPException 404 "Website not found")
  /\ Api.delete_website website_id uid db'
     = (Raises (HTTPException 404 "Website not found"), db', []).
Proof.
  intros Hid Hsite uid db'. subst uid db'.
  assert (Hgone : delete oid db !! oid = None) by apply lookup_delete_eq.
  assert (Hnone : find_owned oid (user_id site) (delete oid db) = None)
    by (unfold find_owned; by rewrite Hgone).
  repeat split.
  - unfold Api.delete_website. rewrite Hid, (find_owned_Some _ _ _ _ Hsite eq_refl).
    cbn [apply_op]. by rewrite (find_owned_Some _ _ _ _ Hsite eq_refl).
  - done.
  - intros other Hne. by apply lookup_delete_ne.
  - unfold ApiRead.get_website. by rewrite Hid, Hnone.
  - unfold Api.delete_website. by rewrite Hid, Hnone.
Qed.

Lemma delete_website_removes_one_witness :
  Api.delete_website id_a 5 db_a = (Returns id_a, delete 1%N db_a, []).
Proof.
  apply (delete_website_removes_one id_a 1%N db_a site_a eq_refl eq_refl).
Defined.

(** X10.  A successful [update_website] rewrites the caller's record with
    [set_settings] and touches no other record.  The interval changes
    only when the request names one, to that name and its seconds; the
    flag changes only when the request carries one; counters, status,
    percentage, URL and owner stay as they were. *)
Theorem update_website_changes_settings_only website_id oid ri rn
    (db db' : Websites) site st evs :
  parse_ObjectId website_id = Some oid ->
  db !! oid = Some site ->
  Api.update_website website_id ri rn (user_id site) db = (Returns st, db', evs) ->
  db' = <[oid := set_settings st site]> db
  /\ set_notifications st = rn
  /\ match set_interval st with
     | Some (key, seconds) =>
         ri = Some key /\ lookup_interval key INTERVALS = Some seconds
         /\ interval (set_settings st site) = key
         /\ interval_seconds (set_settings st site) = seconds
     | None =>
         Py.truthy_str ri = false
         /\ interval (set_settings st site) = interval site
         /\ interval_seconds (set_settings st site) = interval_seconds site
     end
  /\ total_checks (set_settings st site) = total_checks site
  /\ successful_checks (set_settings st site) = successful_checks site
  /\ status (set_settings st site) = status site
  /\ uptime_percentage (set_settings st site) = uptime_percentage site
  /\ url (set_settings st site) = url site
  /\ user_id (set_settings st site) = user_id site.
Proof.
  intros Hid Hsite. unfold Api.update_website, Api.commit_settings.
  rewrite Hid, (find_owned_Some _ _ _ _ Hsite eq_refl).
  destruct (Py.truthy_str ri) eqn:Ht.
  - destruct ri as [key |]; [| discriminate].
    destruct (negb _); [discriminate |].
    destruct (lookup_interval key INTERVALS) as [seconds |] eqn:Hs; [| discriminate].
    cbn. rewrite (find_owned_Some _ _ _ _ Hsite eq_refl).
    intros [= <- <- _]. by repeat split.
  - cbn [set_interval set_notifications]. destruct rn as [b |]; [| discriminate].
    cbn. rewrite (find_owned_Some _ _ _ _ Hsite eq_refl).
    intros [= <- <- _]. by repeat split.
Qed.

Lemma update_website_changes_settings_only_witness :
  (Api.update_website id_a (Some "") (Some false) 5 db_a).1.2 !! 1%N
  = Some (set_settings {| set_interval := None; set_notifications := Some false |}
            site_a).
Proof.
  destruct (update_website_changes_settings_only id_a 1%N (Some "") (Some false)
              db_a
              (<[1%N := set_settings {| set_interval := None;
                                        set_notifications := Some false |} site_a]> db_a)
              site_a {| set_interval := None; set_notifications := Some false |}
              [Updated 1%N true] eq_refl eq_refl eq_refl) as (_ & _).
  reflexivity.
Defined.

(** X11.  [list_websites] answers exactly the caller's records: a record
    is in the answer iff it is stored and owned by the caller, and the
    count is the length of the answer. *)
Theorem list_websites_is_the_callers uid (db : Websites) :
  (forall oid site,
      In (oid, site) (ApiRead.list_websites uid db).1
      <-> db !! oid = Some site /\ user_id site = uid)
  /\ (ApiRead.list_websites uid db).2 = length (ApiRead.list_websites uid db).1
  /\ NoDup (ApiRead.list_websites uid db).1.*1.
Proof.
  unfold ApiRead.list_websites. cbn [fst snd]. split; [| split; [done |]].
  - intros oid site. rewrite filter_In. cbn [snd].
    rewrite <- list_elem_of_In, elem_of_map_to_list, Z.eqb_eq. tauto.
  - pose proof (NoDup_fst_map_to_list db) as Hnd.
    induction (map_to_list db) as [| [k v] l IH]; [constructor |].
    cbn in *. apply NoDup_cons in Hnd as [Hk Hl].
    destruct (Z.eqb (user_id v) uid); cbn; [| by apply IH].
    apply NoDup_cons. split; [| by apply IH].
    intros Hin. apply Hk. clear -Hin.
    induction l as [| [k' v'] l IH]; cbn in *; [by apply elem_of_nil in Hin |].
    destruct (Z.eqb (user_id v') uid); cbn in *.
    + apply elem_of_cons in Hin as [-> | Hin]; [apply elem_of_cons; by left |].
      apply elem_of_cons. right. by apply IH.
    + apply elem_of_cons. right. by apply IH.
Qed.

(** ** Authentication bookkeeping *)

(** X12.  A request authenticates exactly when its header starts with
    "Bearer " and some active document carries the key that the header
    presents.  It then authenticates as the owner of the first such
    document, bumps [requests_count] of that document by one and stamps
    [last_used], leaving the document's other fields, every other
    document and the length of the collection as they were.  A request
    that is refused is answered 401 and changes nothing. *)
Theorem verify_api_key_bookkeeping authorization now keys :
  match Api.verify_api_key authorization now keys with
  | (Returns uid, keys') =>
      exists header i k k',
        authorization = Some header
        /\ Py.startswith "Bearer " header = true
        /\ keys !! i = Some k
        /\ api_key k = Py.remove_all "Bearer " header
        /\ active k = true
        /\ key_user_id k = uid
        /\ (forall j k0, keys !! j = Some k0 -> (j < i)%nat ->
              active k0 = true -> api_key k0 <> Py.remove_all "Bearer " header)
        /\ keys' !! i = Some k'
        /\ requests_count k' = requests_count k + 1
        /\ last_used k' = Some now
        /\ key_user_id k' = key_user_id k /\ api_key k' = api_key k
        /\ created_at k' = created_at k /\ active k' = active k
        /\ (forall j, j <> i -> keys' !! j = keys !! j)
        /\ length keys' = length keys
  | (Raises e, keys') =>
      keys' = keys
      /\ (exists detail, e = HTTPException 401 detail)
      /\ (forall header,
            authorization = Some header ->
            Py.startswith "Bearer " header = true ->
            forall k, In k keys -> active k = true ->
              api_key k <> Py.remove_all "Bearer " header)
  end.
Proof.
  unfold Api.verify_api_key. destruct authorization as [header |].
  2: { split; [done |]. split; [by eexists | discriminate]. }
  destruct (Py.startswith "Bearer " header) eqn:Hstart; cbn [negb].
  2: { split; [done |]. split; [by eexists |]. intros h [= <-]. congruence. }
  destruct (list_find _ keys) as [[i k] |] eqn:E.
  - apply list_find_Some in E as (Hk & Hm & Hleast).
    unfold Api.key_matches in Hm. apply andb_true_iff in Hm as [Hs Ha].
    apply String.eqb_eq in Hs.
    exists header, i, k, (Api.touch now k).
    do 6 (split; [done |]). split.
    { intros j k0 Hj Hlt Ha0 Heq. apply (Hleast j k0 Hj Hlt).
      unfold Api.key_matches. rewrite Ha0, Heq. by rewrite String.eqb_refl. }
    split; [by rewrite list_lookup_alter_eq, Hk |].
    do 6 (split; [done |]). split.
    + intros j Hne. by apply list_lookup_alter_ne.
    + apply length_alter.
  - split; [done |]. split; [by eexists |].
    intros h [= <-] _ k Hin Ha Heq.
    apply list_find_None in E. rewrite Forall_forall in E.
    apply (E k); [by apply list_elem_of_In |].
    unfold Api.key_matches. rewrite Ha, Heq. by rewrite String.eqb_refl.
Qed.

(** ** A key that was issued authenticates its owner *)







(** ** The chat handlers *)

Lemma prefix_append p s : String.prefix p (p ++ s) = true.
Proof.
  induction p as [| a p IH]; simpl; [by destruct s |].
  destruct (Ascii.ascii_dec a a); [exact IH | done].
Qed.

(** X14.  The URL kept by [handle_message] always starts with "http://"
    or "https://": a text that starts with either scheme is kept as it
    is, any other text gets "https://" in front; applying the rule twice
    changes nothing more. *)
Theorem with_scheme_has_scheme u :
  (Py.startswith "http://" (Chat.with_scheme u)
   || Py.startswith "https://" (Chat.with_scheme u)) = true
  /\ (Py.startswith "http://" u = true -> Chat.with_scheme u = u)
  /\ (Py.startswith "https://" u = true -> Chat.with_scheme u = u)
  /\ (Py.startswith "http://" u = false -> Py.startswith "https://" u = false ->
      Chat.with_scheme u = "https://" ++ u)
  /\ Chat.with_scheme (Chat.with_scheme u) = Chat.with_scheme u.
Proof.
  assert (H1 : (Py.startswith "http://" (Chat.with_scheme u)
                || Py.startswith "https://" (Chat.with_scheme u)) = true).
  { unfold Chat.with_scheme.
    destruct (Py.startswith "http://" u || Py.startswith "https://" u) eqn:E;
      [exact E |].
    unfold Py.startswith at 2. rewrite prefix_append. apply orb_true_r. }
  split; [exact H1 |]. split; [| split; [| split]].
  - intros H. unfold Chat.with_scheme. by rewrite H.
  - intros H. unfold Chat.with_scheme. rewrite H. by rewrite orb_true_r.
  - intros Ha Hb. unfold Chat.with_scheme. by rewrite Ha, Hb.
  - unfold Chat.with_scheme at 1. by rewrite H1.
Qed.




Lemma upsert_ids u users :
  map Chat.user_id (Chat.upsert u users) =
    if existsb (fun v => Z.eqb (Chat.user_id v) (Chat.user_id u)) users
    then map Chat.user_id users
    else (map Chat.user_id users ++ [Chat.user_id u])%list.
Proof.
  induction users as [| v users IH]; [done |]. cbn [Chat.upsert existsb map].
  destruct (Z.eqb_spec (Chat.user_id v) (Chat.user_id u)) as [Heq | Hne]; cbn.
  - by rewrite Heq.
  - rewrite IH. by destruct (existsb _ users).
Qed.

Lemma upsert_In u users :
  In u (Chat.upsert u users)
  /\ forall v, Chat.user_id v <> Chat.user_id u ->
       (In v (Chat.upsert u users) <-> In v users).
Proof.
  induction users as [| w users [IH1 IH2]]; cbn [Chat.upsert].
  - split; [by left |]. intros v Hne. cbn. split; [| tauto].
    intros [-> | []]. done.
  - destruct (Z.eqb_spec (Chat.user_id w) (Chat.user_id u)) as [Heq | Hne'].
    + split; [by left |]. intros v Hne. cbn. split.
      * intros [-> | H]; [done | by right].
      * intros [-> | H]; [congruence | by right].
    + split; [right; exact IH1 |]. intros v Hne. cbn. rewrite (IH2 v Hne). tauto.
Qed.

(** X16.  [/start] keeps one document per user: when no two documents of
    [users] share a user id, the same holds after [start]; the user's
    document afterwards is the one just written (so [joined_at] is the
    time of the latest [/start]), the documents of other users are
    untouched, and the collection grows only for a user seen for the
    first time. *)
Theorem start_keeps_one_document_per_user id name first now users :
  NoDup (map Chat.user_id users) ->
  let doc := {| Chat.user_id := id; Chat.username := name;
                Chat.first_name := first; Chat.joined_at := now |} in
  let users' := Chat.start id name first now users in
  NoDup (map Chat.user_id users')
  /\ In doc users'
  /\ (forall v, Chat.user_id v = id -> In v users' -> v = doc)
  /\ (forall v, Chat.user_id v <> id -> (In v users' <-> In v users))
  /\ length users' =
       if existsb (fun v => Z.eqb (Chat.user_id v) id) users
       then length users else S (length users).
Proof.
  intros Hnd doc users'. subst users'. unfold Chat.start. fold doc.
  assert (Hids := upsert_ids doc users). cbn [Chat.user_id doc] in Hids.
  change (Chat.user_id doc) with id in Hids.
  assert (Hnd' : NoDup (map Chat.user_id (Chat.upsert doc users))).
  { rewrite Hids.
    destruct (existsb (fun v => Z.eqb (Chat.user_id v) id) users) eqn:E; [done |].
    apply NoDup_app. split; [done |]. split; [| apply NoDup_singleton].
    intros x Hx Hx'. apply list_elem_of_singleton in Hx' as ->.
    apply list_elem_of_In, in_map_iff in Hx as (v & Hv & Hin).
    assert (existsb (fun v => Z.eqb (Chat.user_id v) id) users = true).
    { apply existsb_exists. exists v. split; [done | by apply Z.eqb_eq]. }
    congruence. }
  destruct (upsert_In doc users) as [Hin Hothers].
  split; [exact Hnd' |]. split; [exact Hin |]. split; [| split].
  - intros v Hv Hvin.
    clear Hids Hothers Hnd.
    induction (Chat.upsert doc users) as [| x l IH]; [done |].
    cbn in Hnd'. apply NoDup_cons in Hnd' as [Hx Hl].
    destruct Hin as [-> | Hin], Hvin as [-> | Hvin]; try done.
    + destruct Hx. apply list_elem_of_In, in_map_iff. exists v.
      split; [by rewrite Hv | done].
    + destruct Hx. apply list_elem_of_In, in_map_iff. exists doc.
      split; [by rewrite Hv | done].
    + by apply IH.
  - exact Hothers.
  - rewrite <- (length_map Chat.user_id), Hids.
    destruct (existsb _ users); [by rewrite length_map |].
    rewrite length_app, length_map. cbn. lia.
Qed.

Lemma start_keeps_one_document_per_user_witness :
  NoDup (map Chat.user_id (Chat.start 6 (Some "bob") "Bob" 9 users_a))
  /\ length (Chat.start 6 (Some "bob") "Bob" 9 users_a) = 2%nat.
Proof.
  assert (Hnd : NoDup (map Chat.user_id users_a)).
  { cbn. apply NoDup_cons. split; [| apply NoDup_singleton].
    intros H%list_elem_of_singleton. discriminate. }
  destruct (start_keeps_one_document_per_user 6 (Some "bob") "Bob" 9 users_a Hnd)
    as (H1 & _ & _ & _ & H5).
  split; [exact H1 | exact H5].
Defined.

(** X17.  Every button of the interval keyboard is routed by
    [button_callback] to the interval selection with the key that follows
    "interval_", and that key is one [INTERVALS] knows, in the same order
    as the table; so [handle_interval_selection] raises [KeyError] for no
    button of the keyboard.  For a key outside the table it raises
    [KeyError] before probing or inserting anything. *)
Theorem interval_buttons_select_known_intervals :
  map Chat.button_callback Chat.interval_buttons
    = map (fun kv => Chat.IntervalSelection (fst kv)) INTERVALS
  /\ (forall data, In data Chat.interval_buttons ->
        exists key seconds,
          Chat.button_callback data = Chat.IntervalSelection key
          /\ data = "interval_" ++ key
          /\ lookup_interval key INTERVALS = Some seconds
          /\ forall from_user pending_url w now oid (db : Websites),
               (Bot.handle_interval_selection from_user pending_url key w now
                  oid db).1.1 <> Raises (Error "KeyError"))
  /\ (forall key from_user pending_url w now oid (db : Websites),
        lookup_interval key INTERVALS = None ->
        Bot.handle_interval_selection from_user pending_url key w now oid db
        = (Raises (Error "KeyError"), db, [])).
Proof.
  split; [reflexivity |]. split.
  - intros data Hin. cbn in Hin.
    repeat (destruct Hin as [<- | Hin];
      [eexists _, _; split; [reflexivity |]; split; [reflexivity |];
       split; [reflexivity |];
       intros from_user pending_url w now oid db;
       unfold Bot.handle_interval_selection; cbn [lookup_interval INTERVALS];
       cbn; destruct (db !! oid); discriminate |]).
    destruct Hin.
  - intros key from_user pending_url w now oid db Hk.
    unfold Bot.handle_interval_selection. by rewrite Hk.
Qed.

(** X18.  Adding a website through the chat: the text sent while a URL is
    awaited is kept with a scheme as the pending URL, and the interval
    button then probes that URL again and inserts a record for it owned
    by the sender, with the status of this second probe, one recorded
    check and the seconds of the chosen interval; the first cycle of the
    monitoring task started for the record probes that same URL. *)
Theorem bot_add_flow admin_ids from_user text stripped w1 delivers users d
    key seconds w2 now oid (db : Websites) :
  Chat.awaiting_url d = true ->
  lookup_interval key INTERVALS = Some seconds ->
  db !! oid = None ->
  let u := Chat.with_scheme stripped in
  Chat.handle_message admin_ids from_user text stripped w1 delivers users d
    = (Chat.AskedInterval u (Bot.check_website w1),
       {| Chat.awaiting_url := false;
          Chat.pending_url := Some u;
          Chat.awaiting_broadcast := Chat.awaiting_broadcast d |})
  /\ exists doc,
       Bot.handle_interval_selection from_user u key w2 now oid db
         = (Returns (oid, doc), <[oid := doc]> db, [Probed u])
       /\ url doc = u /\ user_id doc = from_user
       /\ status doc = res_status (Bot.check_website w2)
       /\ interval_seconds doc = seconds
       /\ total_checks doc = Some 1
       /\ forall c,
            Bot.find_fault c = None ->
            In (Probed u) (Bot.cycle oid from_user c (<[oid := doc]> db)).2.
Proof.
  intros Hu Hk Hfresh u. split.
  - unfold Chat.handle_message. by rewrite Hu.
  - eexists. split.
    + unfold Bot.handle_interval_selection. rewrite Hk, Hfresh. reflexivity.
    + do 5 (split; [reflexivity |]).
      intros c Hf. unfold Bot.cycle. rewrite Hf, lookup_insert_eq.
      rewrite aggregate_Some by (cbn; lia).
      destruct (Bot.update_fault c); [cbn; tauto |].
      destruct (shouldNotify _ _ _); [destruct (Bot.bot_fault c) |]; cbn; tauto.
Qed.

Lemma bot_add_flow_witness :
  exists doc,
    Bot.handle_interval_selection 5 (Chat.with_scheme "b.example") "1min"
      wire_503 50 2%N db_a
    = (Returns (2%N, doc), <[2%N := doc]> db_a, [Probed "https://b.example"])
    /\ url doc = "https://b.example" /\ status doc = down.
Proof.
  destruct (bot_add_flow [] 5 " b.example " "b.example" wire_200 (fun _ => true) []
              {| Chat.awaiting_url := true; Chat.pending_url := None;
                 Chat.awaiting_broadcast := false |}
              "1min" 60 wire_503 50 2%N db_a eq_refl eq_refl eq_refl)
    as (_ & doc & Hrun & Hurl & _ & Hst & _).
  exists doc. split; [exact Hrun |]. split; [exact Hurl | exact Hst].
Defined.

(** ** The header, the two probers, the alert *)

Lemma remove_all_bearer_prefix h :
  Py.remove_all "Bearer " ("Bearer " ++ h) = Py.remove_all "Bearer " h.
Proof.
  unfold Py.remove_all. simpl. cbv [String.append].
  by assert (String.prefix "" h = true) as -> by (by destruct h).
Qed.

(** X19.  The key looked up is what is left of the header after every
    occurrence of "Bearer " is deleted, not only the leading one: a
    header that repeats the prefix is treated exactly like the header
    with a single prefix. *)
Theorem repeated_bearer_prefix_is_ignored h now keys :
  Api.verify_api_key (Some ("Bearer " ++ ("Bearer " ++ h))) now keys
  = Api.verify_api_key (Some ("Bearer " ++ h)) now keys.
Proof.
  unfold Api.verify_api_key, Py.startswith.
  rewrite !prefix_append. cbn [negb].
  by rewrite (remove_all_bearer_prefix ("Bearer " ++ h)).
Qed.

Lemma check_website_agree w :
  res_status (Api.check_website w) = res_status (Bot.check_website w)
  /\ res_status_code (Api.check_website w) = res_status_code (Bot.check_website w)
  /\ res_response_time (Api.check_website w) = res_response_time (Bot.check_website w)
  /\ res_checked_at (Api.check_website w) = res_checked_at (Bot.check_website w).
Proof. unfold Api.check_website, Bot.check_website. by destruct (reply w). Qed.

Lemma set_check_agree w uptime total succ site :
  set_check (Api.check_website w) uptime total succ site
  = set_check (Bot.check_website w) uptime total succ site.
Proof.
  unfold set_check. destruct (check_website_agree w) as (-> & -> & -> & ->). done.
Qed.

(** X20.  The API's prober and the bot's prober classify alike, and the
    error text is not stored: a manual check and a cycle of the loop that
    read the same record and see the same reply on the wire leave the
    same collection behind. *)
Theorem manual_check_matches_cycle website_id oid uid c (db : Websites) site :
  parse_ObjectId website_id = Some oid ->
  db !! oid = Some site ->
  0 <= get (total_checks site) 0 ->
  undisturbed c ->
  (Api.manual_check website_id (user_id site) (Bot.wire c) [] db).1.2
  = (Bot.cycle oid uid c db).1.2.
Proof.
  intros Hid Hsite Hpos (Hf & Hu & Hp & Hs).
  rewrite (manual_check_found _ _ _ _ _ _ _ Hid Hsite eq_refl
             (aggregate_Some _ _ Hpos)).
  unfold Bot.cycle. rewrite Hf, Hsite, (aggregate_Some _ _ Hpos), Hu, Hp, Hs.
  cbn [apply_ops fold_left]. unfold update_one. rewrite Hsite.
  destruct (check_website_agree (Bot.wire c)) as (Hst & _).
  rewrite Hst, set_check_agree.
  destruct (shouldNotify _ _ _); [destruct (Bot.bot_fault c) |]; reflexivity.
Qed.

Lemma manual_check_matches_cycle_witness :
  (Api.manual_check id_a 5 wire_timeout [] db_a).1.2
  = (Bot.cycle 1%N 5 (quiet_cycle wire_timeout) db_a).1.2.
Proof.
  apply (manual_check_matches_cycle id_a 1%N 5 (quiet_cycle wire_timeout) db_a
           site_a eq_refl eq_refl).
  - simpl. lia.
  - by repeat split.
Defined.

(** X21.  What an alert says, by what happened on the wire.  A response
    below 500 gives the back-online alert with the measured response
    time; a response from 500 on gives the down alert naming the HTTP
    status; a timeout gives the down alert naming "Timeout"; any other
    exception gives the down alert naming the exception text, and the
    HTTP status 0 when that text is empty. *)
Theorem alert_by_reply site w uptime now :
  Bot.alert site (Bot.check_website w) uptime now =
    match reply w with
    | Responds code =>
        if Z.ltb code 500
        then BackOnline (url site) now (elapsed_ms w) uptime
        else DownAlert (url site) now (inr code) (interval site)
    | TimesOut _ => DownAlert (url site) now (inl "Timeout") (interval site)
    | Fails EmptyString => DownAlert (url site) now (inr 0) (interval site)
    | Fails text => DownAlert (url site) now (inl text) (interval site)
    end.
Proof.
  unfold Bot.alert, Bot.check_website.
  destruct (reply w) as [code | text | [| a text]]; cbn; try reflexivity.
  by destruct (Z.ltb code 500).
Qed.
